(** * SW5e Mod Manager: chassis items as containers for modifications

    A shallow embedding of [sw5e-mod-manager.js] and the properties of
    its modification lifecycle: the type-masking interceptor, the
    capacity and rarity gates, and the install / remove transactions.

    Conventions of the embedding.
    - A JS string is a [string] whose characters are code units below
      256 (the Latin-1 range); [toLowerCase] and the [\s] class are
      written out for that range.
    - A property that may be [undefined] or [null] is an [option].
    - A property read through a plain [.] on a missing object raises a
      [TypeError]; [?.] short-circuits to [undefined].  Both are kept.
    - The host (Foundry) primitives the script calls are modelled by
      their contract: flags are key/value storage on a document,
      [game.settings.get] reads a key/value store of numbers, embedded
      documents get an id from the host on creation and are deleted
      by id.  The host draws its ids at random; the embedding hands out
      unused numbers, and only their being distinct is ever relied on. *)

From Stdlib Require Import QArith.
From Stdlib Require Import ZArith Lia Ascii String List Bool DecimalString.
From stdpp Require Import base option list strings gmap.

Local Open Scope string_scope.
Local Open Scope Z_scope.

(** ** JS strings *)

Module Js.

Definition code (c : ascii) : N := N_of_ascii c.

(** [String.prototype.toLowerCase] on one code unit: A-Z, and the
    Latin-1 capitals U+00C0..U+00DE except the multiplication sign. *)
Definition lowerChar (c : ascii) : ascii :=
  let n := code c in
  if ((65 <=? n) && (n <=? 90))%N then ascii_of_N (n + 32)
  else if ((192 <=? n) && (n <=? 222) && negb (n =? 215))%N
       then ascii_of_N (n + 32)
  else c.

(** The regular-expression class [\s] below 256: TAB, LF, VT, FF, CR,
    SPACE and NO-BREAK SPACE. *)
Definition isSpace (c : ascii) : bool :=
  let n := code c in
  (((9 <=? n) && (n <=? 13)) || (n =? 32) || (n =? 160))%N.

Fixpoint toLowerCase (s : string) : string :=
  match s with
  | EmptyString => EmptyString
  | String c s' => String (lowerChar c) (toLowerCase s')
  end.

(** [s.replace(/\s/g, '')] *)
Fixpoint stripSpace (s : string) : string :=
  match s with
  | EmptyString => EmptyString
  | String c s' =>
      if isSpace c then stripSpace s' else String c (stripSpace s')
  end.

(** [s.includes(sub)] *)
Fixpoint includes (sub s : string) : bool :=
  String.prefix sub s ||
  match s with
  | EmptyString => false
  | String _ s' => includes sub s'
  end.

(** Truthiness of a possibly missing string: [undefined], [null] and
    the empty string are falsy. *)
Definition truthyStr (o : option string) : bool :=
  match o with
  | Some s => negb (String.eqb s "")
  | None => false
  end.

(** [a || d] for a possibly missing string [a] and a string [d]. *)
Definition orStr (a : option string) (d : string) : string :=
  match a with
  | Some s => if String.eqb s "" then d else s
  | None => d
  end.

(** [a || b] where both may be missing: the first truthy one, else [b]. *)
Definition orOpt (a b : option string) : option string :=
  if truthyStr a then a else b.

(** [template`slots-${k}`] and the like. *)
Definition concat2 (a b : string) : string := a ++ b.

End Js.

(** ** RarityScale: the three literal tables and their lookups *)

(** Property names every object literal inherits from
    [Object.prototype]; [table[k]] finds them when [k] is no own key. *)
Definition objectPrototypeKeys : list string :=
  [ "constructor"; "__proto__"; "hasOwnProperty"; "isPrototypeOf";
    "propertyIsEnumerable"; "toLocaleString"; "toString"; "valueOf";
    "__defineGetter__"; "__defineSetter__"; "__lookupGetter__";
    "__lookupSetter__" ].

(** What [table[k]] evaluates to for a table of numbers. *)
Inductive Lookup : Type :=
| Own (n : Z)              (* an own key of the literal *)
| Inherited (k : string)   (* a function or object from the prototype *)
| Undefined.

Fixpoint assoc (k : string) (t : list (string * Z)) : option Z :=
  match t with
  | [] => None
  | (k', v) :: t' => if String.eqb k k' then Some v else assoc k t'
  end.

Definition inList (k : string) (l : list string) : bool :=
  existsb (String.eqb k) l.

Definition jsLookup (t : list (string * Z)) (k : string) : Lookup :=
  match assoc k t with
  | Some n => Own n
  | None => if inList k objectPrototypeKeys then Inherited k else Undefined
  end.

(** A value used as a number that may in fact be a prototype member. *)
Inductive NumLike : Type :=
| Num (n : Z)
| NotNum (k : string).

(** [v || d] for a table lookup [v] and a number [d]: 0 is falsy. *)
Definition orNum (v : Lookup) (d : Z) : NumLike :=
  match v with
  | Own n => if n =? 0 then Num d else Num n
  | Inherited k => NotNum k
  | Undefined => Num d
  end.

(** The string a prototype member converts to in a comparison. *)
Definition protoToString (k : string) : string :=
  if String.eqb k "__proto__" then "[object Object]"
  else if String.eqb k "constructor" then "function Object() { [native code] }"
  else "function " ++ k ++ "() { [native code] }".

(** String order by code units, as the relational operators use it. *)
Fixpoint strLt (a b : string) : bool :=
  match a, b with
  | _, EmptyString => false
  | EmptyString, String _ _ => true
  | String x a', String y b' =>
      if (Js.code x <? Js.code y)%N then true
      else if (Js.code y <? Js.code x)%N then false
      else strLt a' b'
  end.

(** [a > b]: numeric on two numbers; a prototype member against a
    number converts to NaN (false); two prototype members compare as
    strings. *)
Definition jsGt (a b : NumLike) : bool :=
  match a, b with
  | Num x, Num y => y <? x
  | NotNum k, NotNum k' => strLt (protoToString k') (protoToString k)
  | _, _ => false
  end.

(** [a >= b], by the same conversions. *)
Definition jsGe (a b : NumLike) : bool :=
  match a, b with
  | Num x, Num y => y <=? x
  | NotNum k, NotNum k' => negb (strLt (protoToString k) (protoToString k'))
  | _, _ => false
  end.

Definition rarityScale : list (string * Z) :=
  [ ("common", 1); ("standard", 1); ("uncommon", 2); ("premium", 2);
    ("rare", 3); ("prototype", 3); ("veryrare", 4); ("advanced", 4);
    ("legendary", 5); ("artifact", 6) ].

Definition rarities : list (string * Z) :=
  [ ("common", 10); ("standard", 10); ("uncommon", 14); ("premium", 14);
    ("rare", 18); ("prototype", 18); ("veryrare", 22); ("advanced", 22);
    ("legendary", 26); ("artifact", 30) ].

Definition rarityDefaults : list (string * Z) :=
  [ ("common", 2); ("standard", 2); ("uncommon", 3); ("premium", 3);
    ("rare", 4); ("prototype", 4); ("veryrare", 5); ("advanced", 5);
    ("legendary", 6); ("artifact", 8) ].

(** [(r || "common").toLowerCase().replace(/\s/g, '')] *)
Definition rarityStr (r : option string) : string :=
  Js.stripSpace (Js.toLowerCase (Js.orStr r "common")).

(** [rarityScale[str] || 1], the rank used by [validateRarity]. *)
Definition rank (r : option string) : NumLike :=
  orNum (jsLookup rarityScale (rarityStr r)) 1.

(** [rarities[rarityKey] || 14], the DC used by [showModActionDialog]. *)
Definition dcOfKey (rarityKey : string) : NumLike :=
  orNum (jsLookup rarities rarityKey) 14.

(** The world settings of the module.  A setting is registered with
    [type: Number], so what is stored is a number that need not be
    whole: a fraction here.  The keys of the map are the registered
    settings; [game.settings.get(ns, key)] gives the stored number. *)
Definition Settings := gmap string Q.

(** [game.settings.get('sw5e-mod-manager', `slots-${rarity}`) ?? 2].
    The [?? 2] is the code's own answer for a read that gives nothing,
    and is kept as such; the properties below that speak of a maximum
    take the setting to be registered. *)
Definition maxSlots (settings : Settings) (r : option string) : Q :=
  match settings !! (Js.concat2 "slots-" (rarityStr r)) with
  | Some n => n
  | None => inject_Z 2
  end.

(** The settings as registered by the [init] hook, all at their defaults. *)
Definition defaultSettings : Settings :=
  list_to_map
    (map (fun '(k, v) => (Js.concat2 "slots-" k, inject_Z v)) rarityDefaults).

(** [a < b] on two numbers. *)
Definition numLt (a b : Q) : bool := negb (Qle_bool b a).

(** ** Data model *)

(** One change of an active effect: [{key, mode, value}]. *)
Record Change : Type := mkChange {
  ch_key : string;
  ch_mode : Z;
  ch_value : string
}.

(** The source data of an active effect ([effect.toObject()]).
    [fx_sourceMod] is [flags["sw5e-mod-manager"].sourceMod]. *)
Record EffectData : Type := mkEffectData {
  fx_name : string;
  fx_transfer : bool;
  fx_origin : option string;
  fx_changes : list Change;
  fx_sourceMod : option string
}.

(** [system.type] of an item: [{value, label}]. *)
Record TypeInfo : Type := mkTypeInfo {
  ty_value : option string;
  ty_label : option string
}.

(** [item.system]. [sys_properties] is the property object a
    modification carries (name to flag); a chassis keeps its own tag
    list apart, see [Chassis]. *)
Record SystemData : Type := mkSystemData {
  sys_description : option string;
  sys_rarity : option string;
  sys_weight : option Z;
  sys_price : option Z;
  sys_properties : option (list (string * bool));
  sys_type : option TypeInfo
}.

(** The source data of an item ([item.toObject()]).  The three [flag_]
    fields are [flags["sw5e-mod-manager"].isWrappedMod],
    [flags["sw5e-mod-manager"].originalModData] and [flags.sw5e.type];
    [it_rest] stands for every field the script never looks at. *)
#[local] Set Warnings "-register-all".
Inductive ItemData : Type := mkItemData {
  it_id : string;
  it_name : option string;
  it_type : string;
  it_img : option string;
  it_system : option SystemData;
  it_effects : list EffectData;
  flag_isWrappedMod : option bool;
  flag_originalModData : option ItemData;
  flag_sw5e_type : option string;
  it_rest : list (string * string)
}.
#[local] Set Warnings "register-all".

(** An item document: its source data and its [uuid]. *)
Record Item : Type := mkItem {
  data : ItemData;
  uuid : option string
}.

(** [item.toObject()] *)
Definition toObject (item : Item) : ItemData := data item.

(** An entry of [flags["sw5e-mod-manager"].installedMods]. *)
Record InstalledMod : Type := mkInstalledMod {
  im_id : string;
  im_name : option string;
  im_uuid : option string;
  im_rarity : option string;
  im_originalData : option ItemData;
  im_properties : list string;
  im_effects : list EffectData
}.

(** An active effect embedded in the chassis, under its host id. *)
Record EffectDoc : Type := mkEffectDoc {
  ed_id : nat;
  ed_data : EffectData
}.

(** The chassis document. [c_installedMods] is the flag (unset on a
    fresh item), [c_properties] is [system.properties] read as an
    array, [c_effects] the embedded effect collection. *)
Record Chassis : Type := mkChassis {
  c_uuid : string;
  c_name : string;
  c_type : string;
  c_rarity : option string;
  c_properties : option (list string);
  c_installedMods : option (list InstalledMod);
  c_effects : list EffectDoc
}.

(** What [ui.notifications] is told. *)
Inductive Notice : Type :=
| WarnNotModification (name : option string)
| ErrorNoSlots
| ErrorRarity (modRarityStr chassisRarityStr : string)
| InfoSuccess
| WarnInstallFailed
| ErrorDestroyedOnFailure
| WarnUninstallFailed
| InfoInstalled (name : option string)
| InfoSalvaged (name : option string)
| WarnDestroyed (name : option string).

(** An open install / remove dialog: what [showModActionDialog]
    closed over.  An install dialog holds the dropped item, a remove
    dialog the list entry found at click time. *)
Inductive ModArg : Type :=
| ModItem (modItem : Item)            (* actionType 'install' *)
| ModEntry (modData : InstalledMod).  (* actionType 'remove' *)

Record Dialog : Type := mkDialog {
  dlg_mod : ModArg;
  dlg_dc : NumLike
}.

(** The part of the world the lifecycle reads and writes: the chassis,
    the inventory of the actor that owns it (nothing when the chassis
    is not embedded in an actor), the world item directory, the
    notifications shown so far, the dialogs that are open, and the
    host's next fresh id. *)
Record World : Type := mkWorld {
  chassis : Chassis;
  actorItems : option (list ItemData);
  worldItems : list ItemData;
  notices : list Notice;
  dialogs : list Dialog;
  nextId : nat
}.

(** ** Exceptions and the state of the world *)

Inductive Error : Type :=
| TypeError (what : string).

Inductive Result (A : Type) : Type :=
| Ok (a : A)
| Throw (e : Error).
Arguments Ok {A} a.
Arguments Throw {A} e.

(** A computation that reads and writes the world and may throw; what
    was written before a throw stays written. *)
Definition M (A : Type) : Type := World -> Result A * World.

Definition ret {A} (a : A) : M A := fun w => (Ok a, w).

Definition bind {A B} (m : M A) (f : A -> M B) : M B :=
  fun w =>
    match m w with
    | (Ok a, w') => f a w'
    | (Throw e, w') => (Throw e, w')
    end.

Definition lift {A} (r : Result A) : M A := fun w => (r, w).

Notation "x <- m ;; k" := (bind m (fun x => k))
  (at level 100, m at next level, right associativity).
Notation "m ;;; k" := (bind m (fun _ => k))
  (at level 100, right associativity).

Definition getWorld : M World := fun w => (Ok w, w).

Definition modifyWorld (f : World -> World) : M unit :=
  fun w => (Ok tt, f w).

Definition when (b : bool) (m : M unit) : M unit :=
  if b then m else ret tt.

(** [o.p] on a receiver [o] that may be missing. *)
Definition dot {A} (o : option A) (what : string) : Result A :=
  match o with
  | Some a => Ok a
  | None => Throw (TypeError what)
  end.

Definition setChassis (c : Chassis) (w : World) : World :=
  {| chassis := c; actorItems := actorItems w; worldItems := worldItems w;
     notices := notices w; dialogs := dialogs w; nextId := nextId w |}.

Definition setActorItems (a : option (list ItemData)) (w : World) : World :=
  {| chassis := chassis w; actorItems := a; worldItems := worldItems w;
     notices := notices w; dialogs := dialogs w; nextId := nextId w |}.

Definition setDialogs (d : list Dialog) (w : World) : World :=
  {| chassis := chassis w; actorItems := actorItems w;
     worldItems := worldItems w; notices := notices w; dialogs := d;
     nextId := nextId w |}.

Definition setNextId (n : nat) (w : World) : World :=
  {| chassis := chassis w; actorItems := actorItems w;
     worldItems := worldItems w; notices := notices w;
     dialogs := dialogs w; nextId := n |}.

(** [ui.notifications.info / warn / error] *)
Definition notify (n : Notice) : M unit :=
  modifyWorld (fun w =>
    {| chassis := chassis w; actorItems := actorItems w;
       worldItems := worldItems w; notices := notices w ++ [n];
       dialogs := dialogs w; nextId := nextId w |}).

(** The id the host gives the [n]-th document it creates. *)
Definition hostId (n : nat) : string :=
  "doc" ++ NilEmpty.string_of_uint (Nat.to_uint n).

(** ** TypeMaskCodec: the creation interceptor and the classifier *)

(** Truthiness of a value that is a boolean or missing. *)
Definition truthy (v : option bool) : bool :=
  match v with
  | Some true => true
  | _ => false
  end.

(** The [preCreateItem] hook.  [item] is the source of the document
    about to be created and [dataType] is [data.type] of the creation
    data; [updateSource] rewrites the type and the two module flags
    and leaves the other fields of the source alone. *)
Definition preCreateItem (item : ItemData) (dataType : string) : ItemData :=
  if negb (String.eqb dataType "modification") then item
  else
    let originalModData := item in
    {| it_id := it_id item;
       it_name := it_name item;
       it_type := "loot";
       it_img := it_img item;
       it_system := it_system item;
       it_effects := it_effects item;
       flag_isWrappedMod := Some true;
       flag_originalModData := Some originalModData;
       flag_sw5e_type := flag_sw5e_type item;
       it_rest := it_rest item |}.

(** The payload [performInstall] stores for a modification:
    [mod.toObject()], replaced by the [originalModData] flag when the
    item is wrapped. *)
Definition modDataOf (modItem : Item) : option ItemData :=
  if truthy (flag_isWrappedMod (data modItem))
  then flag_originalModData (data modItem)
  else Some (toObject modItem).

(** [a || b] on values that are a boolean or [undefined]. *)
Definition orB (a b : option bool) : option bool :=
  match a with
  | Some true => a
  | _ => b
  end.

(** [isModification(item)]; [None] is a [null] or [undefined] item.
    Every read on a receiver that may be missing goes through [?.]. *)
Definition isModification (item : option Item) : Result (option bool) :=
  match item with
  | None => Ok (Some false)
  | Some item =>
      if truthy (flag_isWrappedMod (data item)) then Ok (Some true)
      else
        let uuid := Js.orStr (Js.toLowerCase <$> uuid item) "" in
        if Js.includes "modifications" uuid then Ok (Some true)
        else
          let nameMatch :=
            (fun n => Js.includes "modification" (Js.toLowerCase n))
              <$> it_name (data item) in
          let type := it_system (data item) ≫= sys_type in
          let typeValue :=
            Js.orStr (Js.toLowerCase <$> (type ≫= ty_value)) "" in
          let typeLabel :=
            Js.orStr (Js.toLowerCase <$> (type ≫= ty_label)) "" in
          let typeMatch :=
            Js.includes "modification" typeValue
            || Js.includes "modification" typeLabel
            || String.eqb (it_type (data item)) "modification" in
          let sw5eFlag :=
            match flag_sw5e_type (data item) with
            | Some t => String.eqb t "modification"
            | None => false
            end in
          Ok (orB (orB nameMatch (Some typeMatch)) (Some sw5eFlag))
  end.

(** ** SlotPolicy *)

(** [chassis.getFlag('sw5e-mod-manager', 'installedMods') || []] *)
Definition installedMods (c : Chassis) : list InstalledMod :=
  default [] (c_installedMods c).

Definition hasAvailableSlots (settings : Settings) (item : Chassis) : bool :=
  let mods := installedMods item in
  let max := maxSlots settings (c_rarity item) in
  numLt (inject_Z (Z.of_nat (length mods))) max.

Definition validateRarity (chassis : Chassis) (modItem : Item) : M bool :=
  let chassisRarityStr := rarityStr (c_rarity chassis) in
  system <- lift (dot (it_system (data modItem)) "mod.system.rarity") ;;
  let modRarityStr := rarityStr (sys_rarity system) in
  let chassisRank := orNum (jsLookup rarityScale chassisRarityStr) 1 in
  let modRank := orNum (jsLookup rarityScale modRarityStr) 1 in
  if jsGt modRank chassisRank then
    notify (ErrorRarity modRarityStr chassisRarityStr) ;;;
    ret false
  else ret true.

(** ** EffectProjector *)

Definition knownProperties : list string :=
  [ "brutal"; "keen"; "vicious"; "defensive"; "shielding"; "vibration";
    "ion"; "reach"; "versatile"; "biting"; "corruption"; "disarming";
    "disruptive"; "electrified"; "hidden"; "penetrating"; "rapid";
    "shocking"; "silent" ].

Definition getInjectedProperties (modItem : Item) : Result (list string) :=
  match dot (it_name (data modItem)) "mod.name.toLowerCase" with
  | Throw e => Throw e
  | Ok name =>
      let nameLower := Js.toLowerCase name in
      let found :=
        List.filter (fun p => Js.includes p nameLower) knownProperties in
      match it_system (data modItem) ≫= sys_properties with
      | Some props =>
          Ok (found ++ map fst (List.filter (fun kv => snd kv) props))%list
      | None => Ok found
      end
  end.

(** [[...new Set(l)]]: the first occurrence of each element, in order. *)
Fixpoint uniqFrom (seen l : list string) : list string :=
  match l with
  | [] => []
  | x :: l' =>
      if inList x seen then uniqFrom seen l'
      else x :: uniqFrom (x :: seen) l'
  end.

Definition uniq (l : list string) : list string := uniqFrom [] l.

(** ** ModLifecycle *)

Definition isInstall (d : Dialog) : bool :=
  match dlg_mod d with
  | ModItem _ => true
  | ModEntry _ => false
  end.

(** [showModActionDialog(chassis, mod, actionType)]: the DC is fixed
    when the dialog opens, from [mod.system?.rarity || mod.rarity ||
    'common']; an item document has no [rarity] of its own and a list
    entry has no [system]. *)
Definition showModActionDialog (modArg : ModArg) : M unit :=
  let rarity :=
    match modArg with
    | ModItem modItem =>
        Js.orOpt (it_system (data modItem) ≫= sys_rarity) None
    | ModEntry modData => Js.orOpt None (im_rarity modData)
    end in
  let rarityKey := Js.stripSpace (Js.toLowerCase (Js.orStr rarity "common")) in
  let dc := dcOfKey rarityKey in
  modifyWorld (fun w =>
    setDialogs (dialogs w ++ [ {| dlg_mod := modArg; dlg_dc := dc |} ]) w).

Definition setInstalledMods (mods : list InstalledMod) (c : Chassis) : Chassis :=
  {| c_uuid := c_uuid c; c_name := c_name c; c_type := c_type c;
     c_rarity := c_rarity c; c_properties := c_properties c;
     c_installedMods := Some mods; c_effects := c_effects c |}.

Definition setProperties (props : list string) (c : Chassis) : Chassis :=
  {| c_uuid := c_uuid c; c_name := c_name c; c_type := c_type c;
     c_rarity := c_rarity c; c_properties := Some props;
     c_installedMods := c_installedMods c; c_effects := c_effects c |}.

Definition setEffects (effs : list EffectDoc) (c : Chassis) : Chassis :=
  {| c_uuid := c_uuid c; c_name := c_name c; c_type := c_type c;
     c_rarity := c_rarity c; c_properties := c_properties c;
     c_installedMods := c_installedMods c; c_effects := effs |}.

(** [chassis.setFlag('sw5e-mod-manager', 'installedMods', mods)] *)
Definition setFlagInstalledMods (mods : list InstalledMod) : M unit :=
  modifyWorld (fun w => setChassis (setInstalledMods mods (chassis w)) w).

(** [chassis.update({ "system.properties": props })] *)
Definition updateProperties (props : list string) : M unit :=
  modifyWorld (fun w => setChassis (setProperties props (chassis w)) w).

(** The documents the host makes of [effs], each under an id of its
    own.  The host draws an id at random; here the ids are counted up
    from [n], a number no document has yet. *)
Fixpoint withHostIds (n : nat) (effs : list EffectData) : list EffectDoc :=
  match effs with
  | [] => []
  | e :: effs' =>
      {| ed_id := n; ed_data := e |} :: withHostIds (S n) effs'
  end.

(** [chassis.createEmbeddedDocuments("ActiveEffect", effs)] *)
Definition createEffects (effs : list EffectData) : M unit :=
  modifyWorld (fun w =>
    setNextId (nextId w + length effs)%nat
      (setChassis
         (setEffects (c_effects (chassis w) ++ withHostIds (nextId w) effs)
            (chassis w)) w)).

Definition natIn (n : nat) (l : list nat) : bool := existsb (Nat.eqb n) l.

(** [chassis.deleteEmbeddedDocuments("ActiveEffect", ids)] *)
Definition deleteEffects (ids : list nat) : M unit :=
  modifyWorld (fun w =>
    setChassis
      (setEffects
         (List.filter (fun e => negb (natIn (ed_id e) ids))
            (c_effects (chassis w)))
         (chassis w)) w).

(** The effect copy [performInstall] projects on the chassis. *)
Definition processEffect (chassisUuid modId : string) (effect : EffectData)
  : EffectData :=
  {| fx_name := fx_name effect;
     fx_transfer := true;
     fx_origin := Some chassisUuid;
     fx_changes := fx_changes effect;
     fx_sourceMod := Some modId |}.

(** [collection.get(id)] and the deletion of the document found. *)
Definition getById (id : string) (items : list ItemData) : option ItemData :=
  List.find (fun i => String.eqb (it_id i) id) items.

Fixpoint deleteById (id : string) (items : list ItemData) : list ItemData :=
  match items with
  | [] => []
  | i :: items' =>
      if String.eqb (it_id i) id then items' else i :: deleteById id items'
  end.

Definition nonEmpty {A} (l : list A) : bool :=
  match l with
  | [] => false
  | _ :: _ => true
  end.

Definition performInstall (modItem : Item) : M unit :=
  w <- getWorld ;;
  let currentMods := installedMods (chassis w) in
  injectedProps <- lift (getInjectedProperties modItem) ;;
  let modData := modDataOf modItem in
  let modEffects := it_effects (data modItem) in
  let processedEffects :=
    map (processEffect (c_uuid (chassis w)) (it_id (data modItem)))
      modEffects in
  system <- lift (dot (it_system (data modItem)) "mod.system.rarity") ;;
  let newModData :=
    {| im_id := it_id (data modItem);
       im_name := it_name (data modItem);
       im_uuid := uuid modItem;
       im_rarity := sys_rarity system;
       im_originalData := modData;
       im_properties := injectedProps;
       im_effects := processedEffects |} in
  let updatedMods := (currentMods ++ [newModData])%list in
  setFlagInstalledMods updatedMods ;;;
  when (nonEmpty processedEffects) (createEffects processedEffects) ;;;
  when (nonEmpty injectedProps)
    (w1 <- getWorld ;;
     let currentProps := default [] (c_properties (chassis w1)) in
     let newProps := uniq (currentProps ++ injectedProps)%list in
     updateProperties newProps) ;;;
  w2 <- getWorld ;;
  match actorItems w2 with
  | Some items =>
      match getById (it_id (data modItem)) items with
      | Some _ =>
          modifyWorld
            (setActorItems (Some (deleteById (it_id (data modItem)) items)))
      | None => ret tt
      end
  | None => ret tt
  end ;;;
  notify (InfoInstalled (it_name (data modItem))).

(** [n || 0] on a number that may be missing. *)
Definition orZero (n : option Z) : Z := default 0 n.

(** The loot wrapper built on salvage, before the host gives it an id. *)
Definition lootWrapper (id : string) (originalModData : ItemData)
  : Result ItemData :=
  match dot (it_system originalModData) "originalModData.system.description"
  with
  | Throw e => Throw e
  | Ok system =>
      Ok {| it_id := id;
            it_name := it_name originalModData;
            it_type := "loot";
            it_img := it_img originalModData;
            it_system :=
              Some {| sys_description := sys_description system;
                      sys_rarity := sys_rarity system;
                      sys_weight := Some (orZero (sys_weight system));
                      sys_price := Some (orZero (sys_price system));
                      sys_properties := None;
                      sys_type := None |};
            it_effects := [];
            flag_isWrappedMod := Some true;
            flag_originalModData := Some originalModData;
            flag_sw5e_type := None;
            it_rest := [] |}
  end.

(** [chassis.actor.createEmbeddedDocuments("Item", [item])]: the new
    document goes through the [preCreateItem] hook and is stored in
    the inventory [items] of the actor. *)
Definition createActorItem (items : list ItemData) (item : ItemData) : M unit :=
  modifyWorld (fun w =>
    setNextId (S (nextId w))
      (setActorItems
         (Some (items ++ [preCreateItem item (it_type item)])%list) w)).

(** [m => m.id === modId] *)
Definition idIs (modId : string) (m : InstalledMod) : bool :=
  String.eqb (im_id m) modId.

(** [e => e.getFlag('sw5e-mod-manager', 'sourceMod') === modId] *)
Definition sourceModIs (modId : string) (e : EffectDoc) : bool :=
  match fx_sourceMod (ed_data e) with
  | Some src => String.eqb src modId
  | None => false
  end.

Definition performRemove (modId : string) (isSalvaged : bool) : M unit :=
  w <- getWorld ;;
  let currentMods := installedMods (chassis w) in
  let modToRemoval := List.find (idIs modId) currentMods in
  let updatedMods :=
    List.filter (fun m => negb (idIs modId m)) currentMods in
  setFlagInstalledMods updatedMods ;;;
  w0 <- getWorld ;;
  let effectsToDelete :=
    List.filter (sourceModIs modId) (c_effects (chassis w0)) in
  when (nonEmpty effectsToDelete)
    (deleteEffects (map ed_id effectsToDelete)) ;;;
  match modToRemoval with
  | Some m =>
      when (nonEmpty (im_properties m))
        (w1 <- getWorld ;;
         let currentProps := default [] (c_properties (chassis w1)) in
         let filteredProps :=
           List.filter (fun p => negb (inList p (im_properties m)))
             currentProps in
         updateProperties filteredProps)
  | None => ret tt
  end ;;;
  w2 <- getWorld ;;
  match isSalvaged, actorItems w2, modToRemoval ≫= im_originalData with
  | true, Some items, Some originalModData =>
      wrapper <- lift (lootWrapper (hostId (nextId w2)) originalModData) ;;
      createActorItem items wrapper ;;;
      notify (InfoSalvaged (modToRemoval ≫= im_name))
  | _, _, _ =>
      if negb isSalvaged then
        m <- lift (dot modToRemoval "modToRemoval.name") ;;
        notify (WarnDestroyed (im_name m))
      else ret tt
  end.

(** The id a dialog passes to [performRemove]: [mod.id]. *)
Definition modArgId (a : ModArg) : string :=
  match a with
  | ModItem modItem => it_id (data modItem)
  | ModEntry modData => im_id modData
  end.

(** The callback of the dialog's action on its subject. *)
Definition proceed (d : Dialog) : M unit :=
  match dlg_mod d with
  | ModItem modItem => performInstall modItem
  | ModEntry modData => performRemove (im_id modData) true
  end.

(** The "Roll Check" button.  [destroyChecked] is the state of the
    "Destroy on failure?" box and [total] the total of the roll
    [1d20 + @abilities.int.mod + @prof]. *)
Definition rollCallback (d : Dialog) (destroyChecked : bool) (total : Z)
  : M unit :=
  w <- getWorld ;;
  match actorItems w with
  | None => ret tt
  | Some _ =>
      let destroyOnFail := negb (isInstall d) && destroyChecked in
      if jsGe (Num total) (dlg_dc d) then
        notify InfoSuccess ;;;
        proceed d
      else if isInstall d then notify WarnInstallFailed
      else if destroyOnFail then
        notify ErrorDestroyedOnFailure ;;;
        performRemove (modArgId (dlg_mod d)) false
      else notify WarnUninstallFailed
  end.

(** The "Direct (Skip Roll)" button. *)
Definition directCallback (d : Dialog) : M unit := proceed d.

(** The sheet gets the modifications tab, and with it the handlers
    below, only for a weapon or a piece of equipment. *)
Definition isChassisType (c : Chassis) : bool :=
  inList (c_type c) ["weapon"; "equipment"].

(** The drop handler of the tab; [dropType] is [dropData.type] and
    [modItem] the item [Item.fromDropData] resolves. *)
Definition onDrop (settings : Settings) (dropType : string) (modItem : Item)
  : M unit :=
  if negb (String.eqb dropType "Item") then ret tt
  else
    isMod <- lift (isModification (Some modItem)) ;;
    if negb (truthy isMod) then
      notify (WarnNotModification (it_name (data modItem)))
    else
      w <- getWorld ;;
      if negb (hasAvailableSlots settings (chassis w)) then
        notify ErrorNoSlots
      else
        valid <- validateRarity (chassis w) modItem ;;
        if negb valid then ret tt
        else showModActionDialog (ModItem modItem).

(** What [$(ev.currentTarget).data('mod-id')] gives the click handler:
    the attribute as a string, or something that is no string (jQuery
    turns an attribute that looks like a number, a boolean, [null] or
    JSON into that value). *)
Inductive DataValue : Type :=
| DataString (s : string)
| DataOther.

Coercion DataString : string >-> DataValue.

(** [m => m.id === modId] for the value the click read: an id is a
    string and is strictly equal to no other kind of value. *)
Definition idIsData (modId : DataValue) (m : InstalledMod) : bool :=
  match modId with
  | DataString s => idIs s m
  | DataOther => false
  end.

(** The click handler of an entry's uninstall control. *)
Definition onModDelete (modId : DataValue) : M unit :=
  w <- getWorld ;;
  let mods := installedMods (chassis w) in
  match List.find (idIsData modId) mods with
  | Some modData => showModActionDialog (ModEntry modData)
  | None => ret tt
  end.

(** What a user can do on the sheet and in the dialogs it opened.  A
    dialog is named by its position among the open ones; it closes
    when one of its buttons is pressed. *)
Inductive Event : Type :=
| Drop (dropType : string) (modItem : Item)
| ClickDelete (modId : DataValue)
| DialogRoll (i : nat) (destroyChecked : bool) (total : Z)
| DialogDirect (i : nat)
| DialogCancel (i : nat).

Definition closeDialog (i : nat) : M unit :=
  modifyWorld (fun w => setDialogs (delete i (dialogs w)) w).

Definition handle (settings : Settings) (ev : Event) : M unit :=
  match ev with
  | Drop dropType modItem =>
      w <- getWorld ;;
      if isChassisType (chassis w) then onDrop settings dropType modItem
      else ret tt
  | ClickDelete modId =>
      w <- getWorld ;;
      if isChassisType (chassis w) then onModDelete modId else ret tt
  | DialogRoll i destroyChecked total =>
      w <- getWorld ;;
      match dialogs w !! i with
      | Some d => closeDialog i ;;; rollCallback d destroyChecked total
      | None => ret tt
      end
  | DialogDirect i =>
      w <- getWorld ;;
      match dialogs w !! i with
      | Some d => closeDialog i ;;; directCallback d
      | None => ret tt
      end
  | DialogCancel i => closeDialog i
  end.

(** One event; an exception ends the handler and leaves the world as
    the handler had it by then. *)
Definition step (settings : Settings) (w : World) (ev : Event) : World :=
  snd (handle settings ev w).

(** The worlds a sequence of events goes through, the first included. *)
Fixpoint trace (settings : Settings) (w : World) (evs : list Event)
  : list World :=
  match evs with
  | [] => [w]
  | ev :: evs' => w :: trace settings (step settings w ev) evs'
  end.

Definition run (settings : Settings) (w : World) (evs : list Event) : World :=
  fold_left (step settings) evs w.

(** [mods.length], the slot usage shown on the sheet. *)
Definition slotUsage (w : World) : Z :=
  Z.of_nat (length (installedMods (chassis w))).

(** ** Notions the statements use *)

(** The DC of a label, as the dialog computes it for an item whose
    [system.rarity] is [r] (or an entry whose [rarity] is [r]). *)
Definition dcOfLabel (r : option string) : NumLike :=
  dcOfKey (rarityStr r).

(** [k] is one of the ten keys of the rarity tables. *)
Definition isKey (k : string) : bool :=
  match assoc k rarityScale with
  | Some _ => true
  | None => false
  end.

(** Two labels that differ in case and whitespace only. *)
Definition sameLabel (a b : string) : Prop :=
  Js.toLowerCase (Js.stripSpace a) = Js.toLowerCase (Js.stripSpace b).

(** The chassis [performRemove] leaves behind, written as a function
    of the chassis it found. *)
Definition removeFromChassis (modId : string) (c : Chassis) : Chassis :=
  let mods := installedMods c in
  let c1 :=
    setInstalledMods (List.filter (fun m => negb (idIs modId m)) mods) c in
  let dels := List.filter (sourceModIs modId) (c_effects c1) in
  let c2 :=
    if nonEmpty dels
    then setEffects
           (List.filter (fun e => negb (natIn (ed_id e) (map ed_id dels)))
              (c_effects c1)) c1
    else c1 in
  match List.find (idIs modId) mods with
  | Some m =>
      if nonEmpty (im_properties m)
      then setProperties
             (List.filter (fun p => negb (inList p (im_properties m)))
                (default [] (c_properties c2))) c2
      else c2
  | None => c2
  end.

(** The effects [performInstall] projects from a modification. *)
Definition projectedEffects (c : Chassis) (modItem : Item) : list EffectData :=
  map (processEffect (c_uuid c) (it_id (data modItem)))
    (it_effects (data modItem)).

(** The entry [performInstall] appends for a modification whose
    projected tags are [props] and whose [system] is [system]. *)
Definition installedEntry (c : Chassis) (modItem : Item)
    (props : list string) (system : SystemData) : InstalledMod :=
  {| im_id := it_id (data modItem);
     im_name := it_name (data modItem);
     im_uuid := uuid modItem;
     im_rarity := sys_rarity system;
     im_originalData := modDataOf modItem;
     im_properties := props;
     im_effects := projectedEffects c modItem |}.

(** The chassis [performInstall] leaves behind; [n] is the next host id. *)
Definition installOnChassis (n : nat) (modItem : Item) (props : list string)
    (system : SystemData) (c : Chassis) : Chassis :=
  let c1 :=
    setInstalledMods
      (installedMods c ++ [installedEntry c modItem props system]) c in
  let c2 :=
    setEffects (c_effects c ++ withHostIds n (projectedEffects c modItem)) c1 in
  if nonEmpty props
  then setProperties (uniq (default [] (c_properties c) ++ props)) c2
  else c2.

(** The tag set of a chassis, [system.properties] read as an array. *)
Definition tags (c : Chassis) : list string :=
  default [] (c_properties c).

(** The install dialogs among the open ones. *)
Definition installCount (ds : list Dialog) : nat :=
  length (List.filter isInstall ds).

(** The slot bound: the entries of the list are at most the maximum
    configured for the rarity of the chassis. *)
Definition withinSlots (settings : Settings) (w : World) : Prop :=
  Qle (inject_Z (slotUsage w)) (maxSlots settings (c_rarity (chassis w))).

(** The slot setting of the rarity of the chassis is registered and
    holds the whole number [k]. *)
Definition wholeSetting (settings : Settings) (k : Z) (w : World) : Prop :=
  settings !! Js.concat2 "slots-" (rarityStr (c_rarity (chassis w)))
  = Some (inject_Z k).

(** The bound with the open install dialogs counted in, against a
    whole maximum [k]. *)
Definition reserveOk (k : Z) (w : World) : Prop :=
  slotUsage w + Z.of_nat (installCount (dialogs w)) <= k.

(** A drop that comes while no install dialog is open; every other
    event passes. *)
Definition dropsAlone (w : World) (ev : Event) : bool :=
  match ev with
  | Drop _ _ => Nat.eqb (installCount (dialogs w)) 0
  | _ => true
  end.

(** A session in which every install is settled, by a roll, directly
    or by a cancel, before the next modification is dropped. *)
Fixpoint serialized (settings : Settings) (w : World) (evs : list Event)
  : bool :=
  match evs with
  | [] => true
  | ev :: evs' =>
      dropsAlone w ev && serialized settings (step settings w ev) evs'
  end.

(** ** Sample data *)

Definition sampleMod : ItemData :=
  {| it_id := "mod1";
     it_name := Some "Keen Edge";
     it_type := "modification";
     it_img := Some "icons/keen.webp";
     it_system :=
       Some {| sys_description := Some "A honed edge.";
               sys_rarity := Some "Uncommon";
               sys_weight := Some 1;
               sys_price := Some 250;
               sys_properties := Some [("keen", true); ("reach", false)];
               sys_type := Some {| ty_value := Some "modification";
                                   ty_label := None |} |};
     it_effects :=
       [ {| fx_name := "Keen";
            fx_transfer := false;
            fx_origin := None;
            fx_changes := [ {| ch_key := "system.bonuses.mwak.attack";
                               ch_mode := 2; ch_value := "1" |} ];
            fx_sourceMod := None |} ];
     flag_isWrappedMod := None;
     flag_originalModData := None;
     flag_sw5e_type := Some "modification";
     it_rest := [("folder", "mods")] |}.

(** A plain "common" modification. *)
Definition commonMod (id name : string) : ItemData :=
  {| it_id := id;
     it_name := Some name;
     it_type := "modification";
     it_img := None;
     it_system :=
       Some {| sys_description := Some "A common part.";
               sys_rarity := Some "common";
               sys_weight := None;
               sys_price := None;
               sys_properties := None;
               sys_type := None |};
     it_effects := [];
     flag_isWrappedMod := None;
     flag_originalModData := None;
     flag_sw5e_type := None;
     it_rest := [] |}.

Definition sampleMod2 : ItemData := commonMod "mod2" "Keen Targeting Array".
Definition sampleMod4 : ItemData := commonMod "mod4" "Silent Bolt Carrier".
Definition sampleMod5 : ItemData := commonMod "mod5" "Rapid Loader".

Definition sampleMod3 : ItemData :=
  {| it_id := "mod3";
     it_name := Some "Legendary Ion Core";
     it_type := "modification";
     it_img := None;
     it_system :=
       Some {| sys_description := None;
               sys_rarity := Some "Legendary";
               sys_weight := None;
               sys_price := None;
               sys_properties := None;
               sys_type := None |};
     it_effects := [];
     flag_isWrappedMod := None;
     flag_originalModData := None;
     flag_sw5e_type := None;
     it_rest := [] |}.

(** A modification with the rarity label [label]. *)
Definition labelled (label : string) : Item :=
  {| data :=
       {| it_id := "mod9";
          it_name := Some "Field Part";
          it_type := "modification";
          it_img := None;
          it_system :=
            Some {| sys_description := None;
                    sys_rarity := Some label;
                    sys_weight := None;
                    sys_price := None;
                    sys_properties := None;
                    sys_type := None |};
          it_effects := [];
          flag_isWrappedMod := None;
          flag_originalModData := None;
          flag_sw5e_type := None;
          it_rest := [] |};
     uuid := Some "Item.mod9" |}.

(** The three modifications as they sit in storage, wrapped as loot. *)
Definition wrapped (d : ItemData) : Item :=
  {| data := preCreateItem d (it_type d);
     uuid := Some ("Item." ++ it_id d) |}.

Definition keenEdge : Item := wrapped sampleMod.

(** A wrapped item whose own label was edited after it was wrapped:
    the wrapper says legendary, the payload it carries still says
    common. *)
Definition relabelled : Item :=
  {| data :=
       {| it_id := "mod2";
          it_name := Some "Keen Targeting Array";
          it_type := "loot";
          it_img := None;
          it_system :=
            Some {| sys_description := Some "A common part.";
                    sys_rarity := Some "Legendary";
                    sys_weight := None;
                    sys_price := None;
                    sys_properties := None;
                    sys_type := None |};
          it_effects := [];
          flag_isWrappedMod := Some true;
          flag_originalModData := Some sampleMod2;
          flag_sw5e_type := None;
          it_rest := [] |};
     uuid := Some "Item.mod2" |}.
Definition keenArray : Item := wrapped sampleMod2.
Definition ionCore : Item := wrapped sampleMod3.
Definition silentCarrier : Item := wrapped sampleMod4.
Definition rapidLoader : Item := wrapped sampleMod5.

Definition sampleChassis (rarity : string) : Chassis :=
  {| c_uuid := "Item.blade";
     c_name := "Vibroblade";
     c_type := "weapon";
     c_rarity := Some rarity;
     c_properties := Some ["reach"];
     c_installedMods := None;
     c_effects := [] |}.

(** A chassis in the world directory, owned by no actor; the wrapped
    modifications lie next to it. *)
Definition looseWorld (rarity : string) : World :=
  {| chassis := sampleChassis rarity;
     actorItems := None;
     worldItems := [data keenEdge; data keenArray; data ionCore];
     notices := [];
     dialogs := [];
     nextId := 0 |}.

(** A chassis carried by an actor who also carries the first
    modification; the second lies in the world directory. *)
Definition ownedWorld (rarity : string) : World :=
  {| chassis := sampleChassis rarity;
     actorItems := Some [data keenEdge];
     worldItems := [data keenArray];
     notices := [];
     dialogs := [];
     nextId := 0 |}.

(** The world after the actor's modification is installed directly
    on the owned chassis, and the entry that install leaves. *)
Definition installedWorld : World :=
  run defaultSettings (ownedWorld "rare")
    [ Drop "Item" keenEdge; DialogDirect 0 ].

Definition keenEntry : InstalledMod :=
  {| im_id := "mod1";
     im_name := Some "Keen Edge";
     im_uuid := Some "Item.mod1";
     im_rarity := Some "Uncommon";
     im_originalData := Some sampleMod;
     im_properties := ["keen"; "keen"];
     im_effects :=
       map (processEffect "Item.blade" "mod1") (it_effects sampleMod) |}.

(** The world after two direct installs of modifications that both
    contribute the tag "keen". *)
Definition twoKeenWorld : World :=
  run defaultSettings (looseWorld "rare")
    [ Drop "Item" keenEdge; DialogDirect 0;
      Drop "Item" keenArray; DialogDirect 0 ].

(** The default settings with the "common" slots set to 2.5. *)
Definition halfSlotSettings : Settings :=
  <[ "slots-common" := Qmake 5 2 ]> defaultSettings.

(** A "common" chassis filled by two direct installs. *)
Definition fullWorld : World :=
  run defaultSettings (looseWorld "common")
    [ Drop "Item" keenArray; DialogDirect 0;
      Drop "Item" silentCarrier; DialogDirect 0 ].

(** ** The rest of the script *)

(** The [condition] of the "Wrap as SW5e Modification" menu entry:
    [item && isModification(item) && !item.getFlag(.., 'isWrappedMod')],
    read as the host reads it, by its truthiness. *)
Definition wrapCondition (item : option Item) : Result bool :=
  match item with
  | None => Ok false
  | Some it =>
      match isModification item with
      | Throw e => Throw e
      | Ok isMod =>
          Ok (truthy isMod && negb (truthy (flag_isWrappedMod (data it))))
      end
  end.

(** [wrapModification(item)] on the collection [items] the item lives
    in: the embedded items of [item.parent], or the world directory
    when it has no parent; both branches create the wrapper there and
    then delete the item.  [n] is the next host id.  The result is the
    collection afterwards and the name the closing notification shows. *)
Definition wrapModification (n : nat) (items : list ItemData) (item : Item)
  : Result (list ItemData * option string) :=
  let originalData := toObject item in
  match lootWrapper (hostId n) originalData with
  | Throw e => Throw e
  | Ok wrapper =>
      let created := (items ++ [preCreateItem wrapper (it_type wrapper)])%list in
      Ok (deleteById (it_id originalData) created, it_name originalData)
  end.

(** [renderInjectedPropertiesHeader(item)]: the tags the "Active Tags"
    header lists, one span each and in this order; [None] is the empty
    string returned when no entry has a property. *)
Definition renderInjectedPropertiesHeader (item : Chassis)
  : option (list string) :=
  let mods := installedMods item in
  let allProps := flat_map im_properties mods in
  match allProps with
  | [] => None
  | _ :: _ => Some (uniq allProps)
  end.

(** ** Notions of the session properties *)

(** Two worlds that differ in the notifications and the open dialogs
    at most. *)
Definition quiet (w w' : World) : Prop :=
  chassis w' = chassis w
  /\ actorItems w' = actorItems w
  /\ worldItems w' = worldItems w
  /\ nextId w' = nextId w.

(** The host ids of the effects on the chassis are distinct and below
    the next id the host will give. *)
Definition hostIdsOk (w : World) : Prop :=
  NoDup (map ed_id (c_effects (chassis w)))
  /\ Forall (fun e => (ed_id e < nextId w)%nat) (c_effects (chassis w)).

(** Every effect on the chassis that is stamped with a source id has
    an entry under that id in the list. *)
Definition noOrphans (c : Chassis) : Prop :=
  forall e id,
    In e (c_effects c) ->
    fx_sourceMod (ed_data e) = Some id ->
    exists m, In m (installedMods c) /\ im_id m = id.

(** The effect as [performInstall] stamps it. *)
Definition stampedFor (c : Chassis) (modId : string) (e : EffectData) : Prop :=
  fx_transfer e = true
  /\ fx_origin e = Some (c_uuid c)
  /\ fx_sourceMod e = Some modId.

(** The three shapes the world after a handler can have: the world as
    it was up to notices and dialogs, an install on such a world, or a
    removal on such a world. *)
Definition shape (w w' : World) : Prop :=
  quiet w w'
  \/ (exists w1 modItem, quiet w w1 /\ w' = snd (performInstall modItem w1))
  \/ (exists w1 modId isSalvaged,
        quiet w w1 /\ w' = snd (performRemove modId isSalvaged w1)).

(** The identity of the chassis: the fields no handler writes. *)
Definition sameChassisIdentity (c c' : Chassis) : Prop :=
  c_uuid c' = c_uuid c
  /\ c_name c' = c_name c
  /\ c_type c' = c_type c
  /\ c_rarity c' = c_rarity c.

(** ** Proof steps *)

(** Unfold the operations of [M]. *)
Ltac runM :=
  unfold bind, getWorld, setFlagInstalledMods, updateProperties,
    deleteEffects, createEffects, createActorItem, notify, modifyWorld,
    when, ret, lift in *.

(** Every way through [performRemove], one case each. *)
Ltac casesRemove modId isSalvaged w :=
  unfold performRemove, removeFromChassis; runM; cbn;
  destruct (nonEmpty (List.filter (sourceModIs modId) (c_effects (chassis w))));
  cbn;
  destruct (List.find (idIs modId) (installedMods (chassis w))) as [?m |];
  cbn;
  try match goal with
      | |- context [nonEmpty (im_properties ?m)] =>
          destruct (nonEmpty (im_properties m)); cbn
      end;
  destruct isSalvaged; cbn;
  destruct (actorItems w); cbn;
  try match goal with
      | |- context [im_originalData ?m] =>
          destruct (im_originalData m) as [?orig |]; cbn
      end;
  try match goal with
      | |- context [lootWrapper _ ?orig] =>
          unfold lootWrapper; destruct (it_system orig); cbn
      end.

(** A branch that leaves the chassis and the dialogs alone. *)
Ltac sameWorld :=
  cbn [snd]; repeat split; try reflexivity; apply Nat.le_add_r.

(** Case analysis on a table key: one goal per key, then the rest. *)
Ltac byKey k :=
  repeat match goal with
         | |- context [String.eqb k ?lit] =>
             destruct (String.eqb_spec k lit) as [-> | ?]
         end.

(** * Properties *)

(** ** RarityScale *)

Example rank_very_rare : rank (Some "Very Rare") = Num 4.
Proof. reflexivity. Qed.

Example rank_constructor : rank (Some "Constructor") = NotNum "constructor".
Proof. reflexivity. Qed.

Example maxSlots_rare : maxSlots defaultSettings (Some "Rare") = inject_Z 4.
Proof. vm_compute. reflexivity. Qed.

(** ** TypeMaskCodec *)

(** C1. An item of type "modification" that goes through the creation
    interceptor comes out as a "loot" item marked as wrapped, every
    other field of its source is as it was, and the payload read back
    from it at install time is the original record, equal in every
    field. *)
Theorem mask_unmask_roundtrip (item : ItemData) (u : option string) :
  it_type item = "modification" ->
  let masked := preCreateItem item (it_type item) in
  modDataOf {| data := masked; uuid := u |} = Some item
  /\ it_type masked = "loot"
  /\ flag_isWrappedMod masked = Some true
  /\ flag_originalModData masked = Some item
  /\ it_id masked = it_id item
  /\ it_name masked = it_name item
  /\ it_img masked = it_img item
  /\ it_system masked = it_system item
  /\ it_effects masked = it_effects item
  /\ flag_sw5e_type masked = flag_sw5e_type item
  /\ it_rest masked = it_rest item.
Proof.
  intros Htype masked. subst masked.
  unfold preCreateItem. rewrite Htype. cbn.
  repeat split; reflexivity.
Qed.

Lemma mask_unmask_roundtrip_witness :
  modDataOf {| data := preCreateItem sampleMod (it_type sampleMod);
               uuid := Some "Item.mod1" |} = Some sampleMod.
Proof.
  exact (proj1 (mask_unmask_roundtrip sampleMod (Some "Item.mod1") eq_refl)).
Defined.

(** The interceptor leaves every other type alone. *)
Lemma preCreateItem_other (item : ItemData) (dataType : string) :
  dataType <> "modification" -> preCreateItem item dataType = item.
Proof.
  intros Hne. unfold preCreateItem.
  destruct (String.eqb_spec dataType "modification"); [contradiction | reflexivity].
Qed.

(** The wrapper built on salvage carries the payload the same way. *)
Lemma lootWrapper_payload (id : string) (orig wrapper : ItemData)
    (u : option string) :
  lootWrapper id orig = Ok wrapper ->
  it_type wrapper = "loot"
  /\ modDataOf {| data := wrapper; uuid := u |} = Some orig.
Proof.
  unfold lootWrapper. destruct (it_system orig); cbn; [| discriminate].
  intros [= <-]. split; reflexivity.
Qed.

(** [a || b || c] is a boolean as soon as [b] and [c] are. *)
Lemma orB_boolean (a : option bool) (x y : bool) :
  exists b : bool, orB (orB a (Some x)) (Some y) = Some b.
Proof.
  destruct a as [[] |], x; cbn; eexists; reflexivity.
Qed.

(** C10. The classifier answers [false] for a null item, and for every
    item it answers with a boolean, never [undefined], and without an
    exception, whichever of the uuid, the name, [system] and
    [system.type] are missing. *)
Theorem isModification_total :
  isModification None = Ok (Some false)
  /\ forall item : Item, exists b : bool,
       isModification (Some item) = Ok (Some b).
Proof.
  split; [reflexivity |].
  intros item. unfold isModification.
  destruct (truthy _); [eexists; reflexivity |].
  destruct (Js.includes "modifications" _); [eexists; reflexivity |].
  match goal with
  | |- exists b, Ok (orB (orB ?a (Some ?x)) (Some ?y)) = _ =>
      destruct (orB_boolean a x y) as [b Hb]; exists b; rewrite Hb;
      reflexivity
  end.
Qed.

(** An item with nothing but an id and a type is classified. *)
Example isModification_bare :
  isModification
    (Some {| data := {| it_id := "x"; it_name := None; it_type := "loot";
                        it_img := None; it_system := None; it_effects := [];
                        flag_isWrappedMod := None;
                        flag_originalModData := None;
                        flag_sw5e_type := None; it_rest := [] |};
             uuid := None |}) = Ok (Some false).
Proof. reflexivity. Qed.

(** ** RarityScale, continued *)

Lemma isSpace_lowerChar (c : ascii) :
  Js.isSpace (Js.lowerChar c) = Js.isSpace c.
Proof.
  destruct c as [[] [] [] [] [] [] [] []]; vm_compute; reflexivity.
Qed.

Lemma stripSpace_toLowerCase (s : string) :
  Js.stripSpace (Js.toLowerCase s) = Js.toLowerCase (Js.stripSpace s).
Proof.
  induction s as [| c s IH]; [reflexivity |].
  cbn [Js.toLowerCase Js.stripSpace].
  rewrite isSpace_lowerChar.
  destruct (Js.isSpace c); cbn [Js.toLowerCase]; rewrite IH; reflexivity.
Qed.

Lemma orStr_nonempty (s d : string) : s <> "" -> Js.orStr (Some s) d = s.
Proof.
  intros Hne. unfold Js.orStr.
  destruct (String.eqb_spec s ""); [contradiction | reflexivity].
Qed.

Lemma orStr_falsy (r : option string) (d : string) :
  Js.truthyStr r = false -> Js.orStr r d = d.
Proof.
  destruct r as [s |]; cbn; [| reflexivity].
  destruct (String.eqb s ""); [reflexivity | discriminate].
Qed.

Lemma rarityStr_sameLabel (a b : string) :
  a <> "" -> b <> "" -> sameLabel a b ->
  rarityStr (Some a) = rarityStr (Some b).
Proof.
  intros Ha Hb Hsame. unfold rarityStr.
  rewrite !orStr_nonempty by assumption.
  rewrite !stripSpace_toLowerCase. exact Hsame.
Qed.

(** The DC a dialog is opened with is the DC of the subject's label. *)
Lemma showModActionDialog_dc (modArg : ModArg) (w : World) :
  showModActionDialog modArg w =
  (Ok tt,
   setDialogs
     (dialogs w ++
      [ {| dlg_mod := modArg;
           dlg_dc :=
             dcOfLabel
               match modArg with
               | ModItem modItem => it_system (data modItem) ≫= sys_rarity
               | ModEntry modData => im_rarity modData
               end |} ]) w).
Proof.
  unfold showModActionDialog, modifyWorld, dcOfLabel, rarityStr, Js.orOpt.
  destruct modArg as [modItem | modData]; cbn.
  - destruct (it_system (data modItem) ≫= sys_rarity) as [r |]; cbn;
      [destruct (String.eqb r "") eqn:E; cbn; rewrite ?E |]; reflexivity.
  - reflexivity.
Qed.

(** A missing label (undefined, null or the empty string) resolves to
    "common" in all three lookups. *)
Lemma missing_label_is_common (settings : Settings) (r : option string) :
  Js.truthyStr r = false ->
  rank r = rank (Some "common") /\ rank r = Num 1
  /\ dcOfLabel r = dcOfLabel (Some "common") /\ dcOfLabel r = Num 10
  /\ maxSlots settings r = maxSlots settings (Some "common").
Proof.
  intros Hfalsy.
  assert (Hstr : rarityStr r = rarityStr (Some "common")).
  { unfold rarityStr. rewrite (orStr_falsy r) by assumption. reflexivity. }
  unfold rank, dcOfLabel, maxSlots. rewrite Hstr.
  repeat split; reflexivity.
Qed.

(** Non-empty labels that differ in case and whitespace only resolve
    alike in all three lookups. *)
Lemma same_label_resolves_alike (settings : Settings) (a b : string) :
  a <> "" -> b <> "" -> sameLabel a b ->
  rank (Some a) = rank (Some b)
  /\ dcOfLabel (Some a) = dcOfLabel (Some b)
  /\ maxSlots settings (Some a) = maxSlots settings (Some b).
Proof.
  intros Ha Hb Hsame.
  pose proof (rarityStr_sameLabel a b Ha Hb Hsame) as Hstr.
  unfold rank, dcOfLabel, maxSlots. rewrite Hstr.
  repeat split; reflexivity.
Qed.

(** A label whose normal form is no key of the tables, and no property
    inherited from [Object.prototype], gets the rank of "common" from
    [validateRarity] and DC 14 from [showModActionDialog]. *)
Lemma unknown_label_rank_and_dc (r : option string) :
  isKey (rarityStr r) = false ->
  inList (rarityStr r) objectPrototypeKeys = false ->
  rank r = Num 1 /\ dcOfLabel r = Num 14.
Proof.
  intros Hkey Hproto.
  assert (Hscale : jsLookup rarityScale (rarityStr r) = Undefined).
  { unfold jsLookup. unfold isKey in Hkey.
    destruct (assoc (rarityStr r) rarityScale); [discriminate |].
    rewrite Hproto. reflexivity. }
  assert (Hdc : jsLookup rarities (rarityStr r) = Undefined).
  { unfold jsLookup. unfold isKey in Hkey. revert Hkey.
    cbn [assoc rarityScale rarities].
    repeat (destruct (String.eqb (rarityStr r) _); [discriminate |]).
    intros _. rewrite Hproto. reflexivity. }
  unfold rank, dcOfLabel, dcOfKey. rewrite Hscale, Hdc.
  split; reflexivity.
Qed.

(** C7 on the code.  "Mythic" is no key of the rarity tables.  The
    rank lookup falls back to the rank of "common" for it, and a
    missing label gets the DC of "common"; but the dialog that opens
    for a modification labelled "Mythic" has DC 14 where the dialog
    for a "common" one has DC 10: the DC lookup falls back to the
    constant 14, not to "common". *)
Theorem unknown_label_dc_is_not_common :
  let dcOf (label : string) :=
    dlg_dc <$> last (dialogs (snd (showModActionDialog
                                     (ModItem (labelled label))
                                     (looseWorld "rare")))) in
  isKey (rarityStr (Some "Mythic")) = false
  /\ rank (Some "Mythic") = rank (Some "common")
  /\ dcOfLabel None = dcOfLabel (Some "common")
  /\ dcOf "common" = Some (Num 10)
  /\ dcOf "Mythic" = Some (Num 14)
  /\ dcOfLabel (Some "Mythic") <> dcOfLabel (Some "common").
Proof.
  vm_compute. repeat split; try reflexivity. discriminate.
Qed.

Example very_rare_same_label : sameLabel "Very Rare" "veryrare".
Proof. reflexivity. Qed.

Example very_rare_resolves_alike :
  rank (Some "Very Rare") = rank (Some "veryrare")
  /\ dcOfLabel (Some "Very Rare") = Num 22
  /\ maxSlots defaultSettings (Some "Very Rare") = inject_Z 5.
Proof. vm_compute. repeat split; reflexivity. Qed.

(** ** ModLifecycle: removal *)

(** [performRemove] in one equation: the chassis it leaves, then the
    salvage, the report, or the exception. *)
Lemma performRemove_eq (modId : string) (isSalvaged : bool) (w : World) :
  performRemove modId isSalvaged w =
  let w3 := setChassis (removeFromChassis modId (chassis w)) w in
  let found := List.find (idIs modId) (installedMods (chassis w)) in
  match isSalvaged, actorItems w, found ≫= im_originalData with
  | true, Some items, Some orig =>
      match lootWrapper (hostId (nextId w)) orig with
      | Ok wrapper =>
          (Ok tt,
           snd (notify (InfoSalvaged (found ≫= im_name))
                  (snd (createActorItem items wrapper w3))))
      | Throw e => (Throw e, w3)
      end
  | _, _, _ =>
      if negb isSalvaged then
        match found with
        | Some m => (Ok tt, snd (notify (WarnDestroyed (im_name m)) w3))
        | None => (Throw (TypeError "modToRemoval.name"), w3)
        end
      else (Ok tt, w3)
  end.
Proof. casesRemove modId isSalvaged w; reflexivity. Qed.

Lemma performRemove_chassis (modId : string) (isSalvaged : bool) (w : World) :
  chassis (snd (performRemove modId isSalvaged w))
  = removeFromChassis modId (chassis w).
Proof. casesRemove modId isSalvaged w; reflexivity. Qed.

Lemma performRemove_frame (modId : string) (isSalvaged : bool) (w : World) :
  worldItems (snd (performRemove modId isSalvaged w)) = worldItems w
  /\ dialogs (snd (performRemove modId isSalvaged w)) = dialogs w.
Proof. casesRemove modId isSalvaged w; split; reflexivity. Qed.

Lemma performRemove_destroy_actor (modId : string) (w : World) :
  actorItems (snd (performRemove modId false w)) = actorItems w.
Proof.
  rewrite performRemove_eq. cbn.
  destruct (actorItems w) eqn:Hactor;
    destruct (List.find _ _) as [m |]; cbn; try rewrite Hactor;
    try destruct (im_originalData m); cbn; rewrite ?Hactor; reflexivity.
Qed.

Lemma performRemove_destroy_found (modId : string) (w : World)
    (m : InstalledMod) :
  List.find (idIs modId) (installedMods (chassis w)) = Some m ->
  fst (performRemove modId false w) = Ok tt
  /\ notices (snd (performRemove modId false w))
     = (notices w ++ [WarnDestroyed (im_name m)])%list.
Proof.
  intros Hfind. rewrite performRemove_eq. cbn. rewrite Hfind. cbn.
  destruct (actorItems w); try destruct (im_originalData m);
    split; reflexivity.
Qed.

Lemma removeFromChassis_mods (modId : string) (c : Chassis) :
  installedMods (removeFromChassis modId c)
  = List.filter (fun m => negb (idIs modId m)) (installedMods c).
Proof.
  unfold removeFromChassis. cbn.
  destruct (nonEmpty _); cbn;
    destruct (List.find _ _) as [m |]; cbn;
    try destruct (nonEmpty (im_properties m)); reflexivity.
Qed.

Lemma removeFromChassis_rarity (modId : string) (c : Chassis) :
  c_rarity (removeFromChassis modId c) = c_rarity c.
Proof.
  unfold removeFromChassis. cbn.
  destruct (nonEmpty _); cbn;
    destruct (List.find _ _) as [m |]; cbn;
    try destruct (nonEmpty (im_properties m)); reflexivity.
Qed.

Lemma removeFromChassis_effects (modId : string) (c : Chassis) :
  c_effects (removeFromChassis modId c)
  = let dels := List.filter (sourceModIs modId) (c_effects c) in
    if nonEmpty dels
    then List.filter (fun e => negb (natIn (ed_id e) (map ed_id dels)))
           (c_effects c)
    else c_effects c.
Proof.
  unfold removeFromChassis. cbn.
  destruct (nonEmpty _); cbn;
    destruct (List.find _ _) as [m |]; cbn;
    try destruct (nonEmpty (im_properties m)); reflexivity.
Qed.

Lemma nonEmpty_false {A} (l : list A) : nonEmpty l = false -> l = [].
Proof. destruct l; [reflexivity | discriminate]. Qed.

Lemma natIn_In (n : nat) (l : list nat) : natIn n l = true <-> In n l.
Proof.
  unfold natIn. rewrite existsb_exists. split.
  - intros (x & Hin & Heq). apply Nat.eqb_eq in Heq. subst. exact Hin.
  - intros Hin. exists n. split; [exact Hin | apply Nat.eqb_refl].
Qed.

Lemma inList_In (x : string) (l : list string) : inList x l = true <-> In x l.
Proof.
  unfold inList. rewrite existsb_exists. split.
  - intros (y & Hin & Heq). apply String.eqb_eq in Heq. subst. exact Hin.
  - intros Hin. exists x. split; [exact Hin | apply String.eqb_refl].
Qed.

(** No entry under the removed id is left. *)
Lemma removed_entry_gone (modId : string) (c : Chassis) (m : InstalledMod) :
  In m (installedMods (removeFromChassis modId c)) -> im_id m <> modId.
Proof.
  rewrite removeFromChassis_mods. intros Hin.
  apply List.filter_In in Hin as [_ Hne]. unfold idIs in Hne.
  destruct (String.eqb_spec (im_id m) modId); [discriminate | assumption].
Qed.

(** No effect stamped with the removed id is left, and none is added. *)
Lemma removed_effects_gone (modId : string) (c : Chassis) (e : EffectDoc) :
  In e (c_effects (removeFromChassis modId c)) ->
  sourceModIs modId e = false /\ In e (c_effects c).
Proof.
  rewrite removeFromChassis_effects. cbn.
  destruct (nonEmpty _) eqn:Hne.
  - intros Hin. apply List.filter_In in Hin as [Hin Hid]. split; [| exact Hin].
    destruct (sourceModIs modId e) eqn:Hsrc; [| reflexivity].
    exfalso. apply negb_true_iff in Hid.
    assert (Hmem : natIn (ed_id e)
              (map ed_id (List.filter (sourceModIs modId) (c_effects c)))
            = true).
    { apply natIn_In. apply List.in_map. apply List.filter_In.
      split; assumption. }
    congruence.
  - intros Hin. split; [| exact Hin].
    apply nonEmpty_false in Hne.
    destruct (sourceModIs modId e) eqn:Hsrc; [| reflexivity].
    assert (Hmem : In e (List.filter (sourceModIs modId) (c_effects c))).
    { apply List.filter_In. split; assumption. }
    rewrite Hne in Hmem. destruct Hmem.
Qed.

(** The tags of the entry removed are gone from the tag set. *)
Lemma removed_tags_gone (modId : string) (c : Chassis) (m : InstalledMod)
    (p : string) :
  List.find (idIs modId) (installedMods c) = Some m ->
  In p (im_properties m) ->
  ~ In p (tags (removeFromChassis modId c)).
Proof.
  intros Hfind Hp. unfold removeFromChassis, tags. rewrite Hfind.
  destruct (im_properties m) as [| q qs] eqn:Hprops; [destruct Hp |].
  cbn [nonEmpty]. cbn [c_properties setProperties default].
  intros Hin. apply List.filter_In in Hin as [_ Hnot].
  apply negb_true_iff in Hnot.
  apply inList_In in Hp. congruence.
Qed.

(** C3, second half.  After the removal of an installed entry, every
    tag that entry contributed is absent from the tag set of the
    chassis; in particular after the removal of the last entry that
    contributed it. *)
Lemma last_contributor_tag_absent (w : World) (modId : string)
    (isSalvaged : bool) (m : InstalledMod) (p : string) :
  List.find (idIs modId) (installedMods (chassis w)) = Some m ->
  In p (im_properties m) ->
  ~ In p (tags (chassis (snd (performRemove modId isSalvaged w)))).
Proof.
  intros Hfind Hp. rewrite performRemove_chassis.
  exact (removed_tags_gone modId (chassis w) m p Hfind Hp).
Qed.

(** C3, first half, on the code.  Two installed modifications both
    contribute "keen"; the first is removed through its dialog.  The
    second is still installed and still lists "keen", yet "keen" is no
    longer in the tag set of the chassis: [performRemove] subtracts the
    tags of the removed entry and does not look at the others. *)
Theorem shared_tag_lost_on_remove :
  let before := twoKeenWorld in
  let after :=
    run defaultSettings before [ ClickDelete "mod1"; DialogDirect 0 ] in
  map im_id (installedMods (chassis before)) = ["mod1"; "mod2"]
  /\ Forall (fun m => In "keen" (im_properties m))
       (installedMods (chassis before))
  /\ tags (chassis before) = ["reach"; "keen"]
  /\ map im_id (installedMods (chassis after)) = ["mod2"]
  /\ Forall (fun m => In "keen" (im_properties m))
       (installedMods (chassis after))
  /\ tags (chassis after) = ["reach"]
  /\ ~ In "keen" (tags (chassis after)).
Proof.
  vm_compute.
  repeat split; try reflexivity.
  - repeat constructor.
  - repeat constructor.
  - intros [H | []]. discriminate.
Qed.

(** C5. A checked removal whose roll fails.  With "destroy on failure"
    unchecked the world is as it was but for the one warning that the
    modification remains installed.  With it checked every entry under
    the id is out of the list, no effect stamped with the id is left
    on the chassis and none is added, the inventory of the actor and
    the world directory are as they were (no item is recreated), and
    the two notices are the destruction ones. *)
Theorem checked_removal_failed_roll (w : World) (items : list ItemData)
    (e m : InstalledMod) (dc : NumLike) (total : Z) :
  actorItems w = Some items ->
  List.find (idIs (im_id e)) (installedMods (chassis w)) = Some m ->
  jsGe (Num total) dc = false ->
  let d := {| dlg_mod := ModEntry e; dlg_dc := dc |} in
  (let kept := rollCallback d false total w in
   fst kept = Ok tt
   /\ chassis (snd kept) = chassis w
   /\ In m (installedMods (chassis (snd kept)))
   /\ actorItems (snd kept) = actorItems w
   /\ worldItems (snd kept) = worldItems w
   /\ notices (snd kept) = (notices w ++ [WarnUninstallFailed])%list)
  /\
  (let destroyed := rollCallback d true total w in
   fst destroyed = Ok tt
   /\ installedMods (chassis (snd destroyed))
      = List.filter (fun m' => negb (idIs (im_id e) m'))
          (installedMods (chassis w))
   /\ (forall m', In m' (installedMods (chassis (snd destroyed))) ->
                  im_id m' <> im_id e)
   /\ (forall fx, In fx (c_effects (chassis (snd destroyed))) ->
                  sourceModIs (im_id e) fx = false
                  /\ In fx (c_effects (chassis w)))
   /\ actorItems (snd destroyed) = actorItems w
   /\ worldItems (snd destroyed) = worldItems w
   /\ notices (snd destroyed)
      = (notices w ++ [ErrorDestroyedOnFailure; WarnDestroyed (im_name m)])%list).
Proof.
  intros Hactor Hfind Hfail d. split.
  - unfold rollCallback. runM. cbn -[jsGe]. rewrite Hactor, Hfail. cbn.
    repeat split; try reflexivity; try assumption.
    apply List.find_some in Hfind. exact (proj1 Hfind).
  - cbn zeta.
    set (w1 := snd (notify ErrorDestroyedOnFailure w)).
    assert (Hroll : rollCallback d true total w
                    = performRemove (im_id e) false w1).
    { unfold rollCallback, bind at 1, getWorld. rewrite Hactor.
      subst d. cbn [isInstall dlg_mod dlg_dc negb andb modArgId].
      rewrite Hfail. reflexivity. }
    rewrite Hroll.
    assert (Hfind1 : List.find (idIs (im_id e)) (installedMods (chassis w1))
                     = Some m) by exact Hfind.
    destruct (performRemove_destroy_found _ w1 m Hfind1) as [Hok Hnotes].
    destruct (performRemove_frame (im_id e) false w1) as [Hitems _].
    rewrite performRemove_chassis, performRemove_destroy_actor, Hitems, Hnotes.
    change (chassis w1) with (chassis w).
    repeat split; try assumption.
    + apply removeFromChassis_mods.
    + intros m'. apply removed_entry_gone.
    + eapply removed_effects_gone; eassumption.
    + eapply removed_effects_gone; eassumption.
    + unfold w1. cbn. rewrite <- app_assoc. reflexivity.
Qed.

Lemma checked_removal_failed_roll_witness :
  let d := {| dlg_mod := ModEntry keenEntry; dlg_dc := Num 14 |} in
  notices (snd (rollCallback d false 5 installedWorld))
  = (notices installedWorld ++ [WarnUninstallFailed])%list
  /\ installedMods (chassis (snd (rollCallback d true 5 installedWorld)))
     = List.filter (fun m' => negb (idIs (im_id keenEntry) m'))
         (installedMods (chassis installedWorld)).
Proof.
  assert (Hactor : actorItems installedWorld = Some [])
    by (vm_compute; reflexivity).
  assert (Hfind : List.find (idIs (im_id keenEntry))
                    (installedMods (chassis installedWorld))
                  = Some keenEntry)
    by (vm_compute; reflexivity).
  assert (Hfail : jsGe (Num 5) (Num 14) = false) by reflexivity.
  destruct (checked_removal_failed_roll installedWorld [] keenEntry keenEntry
              (Num 14) 5 Hactor Hfind Hfail) as [Hkept Hdestroyed].
  split.
  - exact (proj2 (proj2 (proj2 (proj2 (proj2 Hkept))))).
  - exact (proj1 (proj2 Hdestroyed)).
Defined.

(** A removal under an id that is not in the list: the salvage form
    leaves the list, the tags, the inventory and the notices as they
    were and deletes at most effects stamped with that id. *)
Lemma performRemove_missing_salvage (w : World) (modId : string) :
  List.find (idIs modId) (installedMods (chassis w)) = None ->
  let r := performRemove modId true w in
  fst r = Ok tt
  /\ installedMods (chassis (snd r)) = installedMods (chassis w)
  /\ tags (chassis (snd r)) = tags (chassis w)
  /\ actorItems (snd r) = actorItems w
  /\ notices (snd r) = notices w.
Proof.
  intros Hfind r. subst r.
  assert (Hmods : List.filter (fun m => negb (idIs modId m))
                    (installedMods (chassis w)) = installedMods (chassis w)).
  { apply List.forallb_filter_id. apply List.forallb_forall. intros m Hin.
    destruct (idIs modId m) eqn:Hid; [| reflexivity].
    exfalso. eapply List.find_none in Hfind; [| exact Hin]. congruence. }
  rewrite performRemove_eq. cbn zeta. rewrite Hfind.
  cbn [mbind option_bind negb].
  assert (Hch : installedMods (removeFromChassis modId (chassis w))
                = installedMods (chassis w))
    by (rewrite removeFromChassis_mods; exact Hmods).
  assert (Htags : tags (removeFromChassis modId (chassis w))
                  = tags (chassis w)).
  { unfold removeFromChassis, tags. rewrite Hfind.
    destruct (nonEmpty _); reflexivity. }
  destruct (actorItems w) eqn:Hactor; cbn; rewrite ?Hactor;
    repeat split; assumption || reflexivity.
Qed.

(** The destroying form of the same request reads the name of the
    entry it did not find. *)
Lemma performRemove_missing_destroy (w : World) (modId : string) :
  List.find (idIs modId) (installedMods (chassis w)) = None ->
  fst (performRemove modId false w) = Throw (TypeError "modToRemoval.name").
Proof.
  intros Hfind. rewrite performRemove_eq. cbn zeta. rewrite Hfind.
  destruct (actorItems w); reflexivity.
Qed.

(** C6 on the code.  The id "ghost" is not installed on the chassis;
    the destroying removal of it raises a TypeError.  The same happens
    from the sheet: two removal dialogs are opened for "mod1", the
    first salvages it, the second fails its roll with "destroy on
    failure" checked. *)
Theorem remove_missing_id_throws :
  List.find (idIs "ghost") (installedMods (chassis installedWorld)) = None
  /\ fst (performRemove "ghost" false installedWorld)
     = Throw (TypeError "modToRemoval.name")
  /\ (let w :=
        run defaultSettings installedWorld
          [ ClickDelete "mod1"; ClickDelete "mod1"; DialogDirect 0 ] in
      List.find (idIs "mod1") (installedMods (chassis w)) = None
      /\ fst (handle defaultSettings (DialogRoll 0 true 1) w)
         = Throw (TypeError "modToRemoval.name")).
Proof. vm_compute. repeat split; reflexivity. Qed.

(** C9. A salvage removal changes the inventory of the actor only when
    the chassis has an actor and the entry found has its original
    payload; when it has both (and the payload has its [system]) the
    inventory grows by one wrapped loot item that carries the payload,
    and the salvage is reported.  On a chassis without an actor the
    entry and the effects stamped with its id go, nothing is created,
    and nothing is reported.  The world directory is never touched. *)
Theorem salvage_removal (w : World) (modId : string) :
  let r := performRemove modId true w in
  (actorItems (snd r) <> actorItems w ->
     (exists items, actorItems w = Some items)
     /\ exists m orig,
          List.find (idIs modId) (installedMods (chassis w)) = Some m
          /\ im_originalData m = Some orig)
  /\ (forall items m orig system,
        actorItems w = Some items ->
        List.find (idIs modId) (installedMods (chassis w)) = Some m ->
        im_originalData m = Some orig ->
        it_system orig = Some system ->
        exists wrapper,
          fst r = Ok tt
          /\ actorItems (snd r) = Some (items ++ [wrapper])%list
          /\ it_type wrapper = "loot"
          /\ flag_isWrappedMod wrapper = Some true
          /\ flag_originalModData wrapper = Some orig
          /\ notices (snd r) = (notices w ++ [InfoSalvaged (im_name m)])%list)
  /\ (actorItems w = None ->
        fst r = Ok tt
        /\ installedMods (chassis (snd r))
           = List.filter (fun m => negb (idIs modId m))
               (installedMods (chassis w))
        /\ (forall m, In m (installedMods (chassis (snd r))) ->
                      im_id m <> modId)
        /\ (forall fx, In fx (c_effects (chassis (snd r))) ->
                       sourceModIs modId fx = false)
        /\ actorItems (snd r) = None
        /\ notices (snd r) = notices w)
  /\ worldItems (snd r) = worldItems w.
Proof.
  intros r. subst r. split; [| split; [| split]]; [| | | apply performRemove_frame].
  - intros Hchanged.
    rewrite performRemove_eq in Hchanged. cbn zeta in Hchanged.
    destruct (actorItems w) as [items |] eqn:Hactor;
      [| exfalso; apply Hchanged; cbn; exact Hactor].
    split; [eexists; reflexivity |].
    destruct (List.find (idIs modId) (installedMods (chassis w)))
      as [m |] eqn:Hfind;
      [| exfalso; apply Hchanged; cbn; exact Hactor].
    destruct (im_originalData m) as [orig |] eqn:Horig.
    + exists m, orig. split; [reflexivity | exact Horig].
    + exfalso. apply Hchanged. cbn. rewrite Horig. cbn. exact Hactor.
  - intros items m orig system Hactor Hfind Horig Hsys.
    rewrite performRemove_eq. cbn zeta. rewrite Hactor, Hfind.
    cbn [mbind option_bind]. rewrite Horig.
    unfold lootWrapper. rewrite Hsys. cbn.
    eexists. repeat split; reflexivity.
  - intros Hactor.
    pose proof (performRemove_chassis modId true w) as Hch.
    assert (Hrun : performRemove modId true w
                   = (Ok tt,
                      setChassis (removeFromChassis modId (chassis w)) w)).
    { rewrite performRemove_eq. cbn zeta. rewrite Hactor. reflexivity. }
    repeat split.
    + rewrite Hrun. reflexivity.
    + rewrite Hch. apply removeFromChassis_mods.
    + intros m. rewrite Hch. apply removed_entry_gone.
    + intros fx Hin. rewrite Hch in Hin.
      eapply removed_effects_gone; eassumption.
    + rewrite Hrun. exact Hactor.
    + rewrite Hrun. reflexivity.
Qed.

Lemma salvage_removal_witness :
  (exists wrapper,
     actorItems (snd (performRemove "mod1" true installedWorld))
     = Some [wrapper]
     /\ it_type wrapper = "loot"
     /\ flag_originalModData wrapper = Some sampleMod)
  /\ actorItems (snd (performRemove "mod1" true twoKeenWorld)) = None
  /\ notices (snd (performRemove "mod1" true twoKeenWorld))
     = notices twoKeenWorld.
Proof.
  split.
  - destruct (salvage_removal installedWorld "mod1") as (_ & Hsalvage & _).
    assert (Hsys : it_system sampleMod = Some (default
              {| sys_description := None; sys_rarity := None;
                 sys_weight := None; sys_price := None;
                 sys_properties := None; sys_type := None |}
              (it_system sampleMod))) by reflexivity.
    destruct (Hsalvage [] keenEntry sampleMod _
                ltac:(vm_compute; reflexivity)
                ltac:(vm_compute; reflexivity) eq_refl Hsys)
      as (wrapper & _ & Hitems & Htype & _ & Horig & _).
    exists wrapper. repeat split; assumption.
  - destruct (salvage_removal twoKeenWorld "mod1") as (_ & _ & Hloose & _).
    destruct (Hloose ltac:(vm_compute; reflexivity))
      as (_ & _ & _ & _ & Hactor & Hnotes).
    split; assumption.
Defined.

(** ** ModLifecycle: install *)

Lemma deleteById_absent (id : string) (items : list ItemData) :
  getById id items = None -> deleteById id items = items.
Proof.
  unfold getById. induction items as [| i items IH]; [reflexivity |].
  cbn. destruct (String.eqb (it_id i) id); [discriminate |].
  intros Hnone. rewrite IH by exact Hnone. reflexivity.
Qed.

Lemma getInjectedProperties_ok (modItem : Item) (name : string) :
  it_name (data modItem) = Some name ->
  exists props, getInjectedProperties modItem = Ok props.
Proof.
  intros Hname. unfold getInjectedProperties. rewrite Hname. cbn [dot].
  destruct (it_system (data modItem) ≫= sys_properties); eexists; reflexivity.
Qed.

(** [performInstall] in one equation. *)
Lemma performInstall_eq (modItem : Item) (w : World) :
  performInstall modItem w =
  match getInjectedProperties modItem with
  | Throw e => (Throw e, w)
  | Ok props =>
      match it_system (data modItem) with
      | None => (Throw (TypeError "mod.system.rarity"), w)
      | Some system =>
          (Ok tt,
           {| chassis :=
                installOnChassis (nextId w) modItem props system (chassis w);
              actorItems := deleteById (it_id (data modItem)) <$> actorItems w;
              worldItems := worldItems w;
              notices :=
                (notices w ++ [InfoInstalled (it_name (data modItem))])%list;
              dialogs := dialogs w;
              nextId :=
                (nextId w + length (it_effects (data modItem)))%nat |})
      end
  end.
Proof.
  unfold performInstall, installOnChassis, installedEntry, projectedEffects.
  unfold bind at 1. unfold getWorld at 1. unfold bind at 1, lift at 1.
  destruct (getInjectedProperties modItem) as [props | e]; [| reflexivity].
  unfold bind at 1, lift at 1.
  destruct (it_system (data modItem)) as [system |]; [| reflexivity].
  cbn [dot].
  runM.
  destruct (it_effects (data modItem)) as [| fx fxs] eqn:Hfx;
    destruct props as [| p ps];
    destruct (actorItems w) as [items |] eqn:Hactor;
    cbn -[uniq processEffect hostId]; rewrite ?Hactor;
    cbn -[uniq processEffect hostId];
    try (destruct (getById (it_id (data modItem)) items) eqn:Hget;
         cbn -[uniq processEffect hostId];
         rewrite ?(deleteById_absent _ _ Hget));
    rewrite ?Nat.add_0_r, ?app_nil_r, ?length_map, ?Hactor; try reflexivity.

Qed.

Lemma uniqFrom_In (x : string) (l seen : list string) :
  In x (uniqFrom seen l) <-> In x l /\ ~ In x seen.
Proof.
  revert seen. induction l as [| y l IH]; intros seen; cbn.
  - tauto.
  - destruct (inList y seen) eqn:Hseen.
    + apply inList_In in Hseen. rewrite IH. split.
      * intros [Hin Hnot]. tauto.
      * intros [[-> | Hin] Hnot]; [contradiction | tauto].
    + assert (Hnot : ~ In y seen).
      { intros Hin. apply inList_In in Hin. congruence. }
      cbn. rewrite IH. cbn. split.
      * intros [-> | [Hin Hn]]; [tauto |]. tauto.
      * intros [[-> | Hin] Hn]; [tauto |].
        destruct (String.eqb_spec y x) as [-> | Hne]; [tauto |].
        right. split; [assumption |]. intros [Heq | Hs]; [congruence | tauto].
Qed.

Lemma uniq_In (x : string) (l : list string) : In x (uniq l) <-> In x l.
Proof. unfold uniq. rewrite uniqFrom_In. cbn. tauto. Qed.

(** Deleting by id takes one document out of a collection that has it. *)
Lemma deleteById_length (id : string) (items : list ItemData) (i : ItemData) :
  getById id items = Some i ->
  S (length (deleteById id items)) = length items.
Proof.
  unfold getById. induction items as [| j items IH]; [discriminate |].
  cbn. destruct (String.eqb (it_id j) id); [reflexivity |].
  intros Hget. cbn. rewrite IH by exact Hget. reflexivity.
Qed.

(** C8, as the code has it.  An install that succeeds appends the
    entry, with the unmasked payload, to the list of the chassis,
    creates the projected effects on the chassis and merges the
    projected tags into its tag set.  The source item is deleted from
    the inventory of the actor that owns the chassis, where it is
    looked up by its id, and from nowhere else: the world directory is
    as it was, and a chassis without an actor deletes nothing. *)
Theorem install_records_and_consumes (w : World) (modItem : Item)
    (name : string) (system : SystemData) :
  it_name (data modItem) = Some name ->
  it_system (data modItem) = Some system ->
  exists props,
    getInjectedProperties modItem = Ok props
    /\ let r := performInstall modItem w in
       fst r = Ok tt
       /\ installedMods (chassis (snd r))
          = (installedMods (chassis w)
             ++ [installedEntry (chassis w) modItem props system])%list
       /\ im_originalData (installedEntry (chassis w) modItem props system)
          = modDataOf modItem
       /\ c_effects (chassis (snd r))
          = (c_effects (chassis w)
             ++ withHostIds (nextId w) (projectedEffects (chassis w) modItem))%list
       /\ (forall p, In p (tags (chassis (snd r)))
                     <-> In p (tags (chassis w)) \/ In p props)
       /\ actorItems (snd r)
          = deleteById (it_id (data modItem)) <$> actorItems w
       /\ worldItems (snd r) = worldItems w
       /\ notices (snd r) = (notices w ++ [InfoInstalled (Some name)])%list.
Proof.
  intros Hname Hsys.
  destruct (getInjectedProperties_ok modItem name Hname) as [props Hprops].
  exists props. split; [exact Hprops |].
  cbn zeta. rewrite performInstall_eq, Hprops, Hsys, Hname.
  cbn [fst snd chassis actorItems worldItems notices].
  unfold installOnChassis.
  split; [reflexivity |].
  split; [destruct (nonEmpty props); reflexivity |].
  split; [reflexivity |].
  split; [destruct (nonEmpty props); reflexivity |].
  split; [| repeat split; reflexivity].
  intros p. destruct props as [| q qs]; cbn [nonEmpty].
  - unfold tags. cbn. tauto.
  - unfold tags at 1. cbn [c_properties setProperties default from_option id].
    rewrite uniq_In, in_app_iff. unfold tags. tauto.
Qed.

Lemma install_records_and_consumes_witness :
  actorItems (snd (performInstall keenEdge (ownedWorld "rare"))) = Some []
  /\ worldItems (snd (performInstall keenArray (ownedWorld "rare")))
     = [data keenArray]
  /\ actorItems (snd (performInstall keenArray (ownedWorld "rare")))
     = Some [data keenEdge].
Proof.
  destruct (install_records_and_consumes (ownedWorld "rare") keenEdge
              "Keen Edge"
              (default {| sys_description := None; sys_rarity := None;
                          sys_weight := None; sys_price := None;
                          sys_properties := None; sys_type := None |}
                 (it_system sampleMod))
              eq_refl eq_refl)
    as (props1 & _ & _ & _ & _ & _ & _ & Hactor1 & _).
  destruct (install_records_and_consumes (ownedWorld "rare") keenArray
              "Keen Targeting Array"
              (default {| sys_description := None; sys_rarity := None;
                          sys_weight := None; sys_price := None;
                          sys_properties := None; sys_type := None |}
                 (it_system sampleMod2))
              eq_refl eq_refl)
    as (props2 & _ & _ & _ & _ & _ & _ & Hactor2 & Hworld2 & _).
  split; [| split].
  - rewrite Hactor1. reflexivity.
  - exact Hworld2.
  - rewrite Hactor2. reflexivity.
Defined.

(** C8 as stated fails: the chassis is carried by an actor, the
    modification is dragged from the world directory and installed
    directly.  The install succeeds and records the entry, and the
    source item is still in the world directory. *)
Lemma install_keeps_directory_source_counterexample :
  let w := ownedWorld "rare" in
  let w' := run defaultSettings w [ Drop "Item" keenArray; DialogDirect 0 ] in
  In (data keenArray) (worldItems w)
  /\ map im_id (installedMods (chassis w')) = ["mod2"]
  /\ notices w' = [InfoInstalled (Some "Keen Targeting Array")]
  /\ In (data keenArray) (worldItems w').
Proof.
  vm_compute. repeat split; try reflexivity; left; reflexivity.
Qed.

(** ** SlotPolicy at the drop handler *)

(** C4, as the code has it.  A recognised modification whose rank is
    above the rank of the chassis is dropped on the sheet.  The drop
    ends without an exception and opens no dialog; the chassis (its
    list, tags and effects), the inventory and the directory are as
    they were.  The one notice gives the reason: no free slot when the
    chassis is full, since capacity is looked at first, and the rarity
    mismatch when it has a free slot. *)
Theorem higher_rarity_rejected (settings : Settings) (w : World)
    (modItem : Item) (system : SystemData) (a b : Z) :
  isChassisType (chassis w) = true ->
  isModification (Some modItem) = Ok (Some true) ->
  it_system (data modItem) = Some system ->
  rank (sys_rarity system) = Num a ->
  rank (c_rarity (chassis w)) = Num b ->
  b < a ->
  let r := handle settings (Drop "Item" modItem) w in
  fst r = Ok tt
  /\ chassis (snd r) = chassis w
  /\ actorItems (snd r) = actorItems w
  /\ worldItems (snd r) = worldItems w
  /\ dialogs (snd r) = dialogs w
  /\ notices (snd r)
     = (notices w ++
        [ if hasAvailableSlots settings (chassis w)
          then ErrorRarity (rarityStr (sys_rarity system))
                 (rarityStr (c_rarity (chassis w)))
          else ErrorNoSlots ])%list.
Proof.
  intros Htype Hmod Hsys Hra Hrb Hlt r.
  assert (Hrun : r = notify
                       (if hasAvailableSlots settings (chassis w)
                        then ErrorRarity (rarityStr (sys_rarity system))
                               (rarityStr (c_rarity (chassis w)))
                        else ErrorNoSlots) w).
  { subst r. unfold handle, onDrop.
    unfold bind at 1, getWorld at 1. rewrite Htype.
    cbn [String.eqb Ascii.eqb Bool.eqb negb].
    unfold bind at 1, lift at 1. rewrite Hmod. cbn [truthy negb].
    unfold bind at 1, getWorld at 1.
    destruct (hasAvailableSlots settings (chassis w)); cbn [negb];
      [| reflexivity].
    unfold validateRarity, bind at 1. unfold bind at 1, lift at 1.
    rewrite Hsys. cbn [dot].
    unfold rank in Hra, Hrb. rewrite Hra, Hrb.
    assert (Hgt : jsGt (Num a) (Num b) = true)
      by (cbn; apply Z.ltb_lt; exact Hlt).
    rewrite Hgt. reflexivity. }
  rewrite Hrun. cbn. repeat split; reflexivity.
Qed.

Lemma higher_rarity_rejected_witness :
  notices (snd (handle defaultSettings (Drop "Item" ionCore)
                  (looseWorld "rare")))
  = [ErrorRarity "legendary" "rare"]
  /\ dialogs (snd (handle defaultSettings (Drop "Item" ionCore)
                     (looseWorld "rare"))) = [].
Proof.
  destruct (higher_rarity_rejected defaultSettings (looseWorld "rare")
              ionCore
              (default {| sys_description := None; sys_rarity := None;
                          sys_weight := None; sys_price := None;
                          sys_properties := None; sys_type := None |}
                 (it_system sampleMod3))
              5 3 eq_refl eq_refl eq_refl eq_refl eq_refl eq_refl)
    as (_ & _ & _ & _ & Hdialogs & Hnotices).
  split; [| exact Hdialogs].
  rewrite Hnotices. vm_compute. reflexivity.
Defined.

(** The world after a "common" chassis is filled with two direct
    installs. *)
Example fullWorld_is_full :
  slotUsage fullWorld = 2
  /\ maxSlots defaultSettings (c_rarity (chassis fullWorld)) = inject_Z 2
  /\ hasAvailableSlots defaultSettings (chassis fullWorld) = false.
Proof. vm_compute. repeat split; reflexivity. Qed.

(** C4 as stated fails on a full chassis: the legendary modification
    is above the common chassis, and the drop is turned away for the
    missing slot, with no word on the rarity. *)
Lemma full_chassis_reports_capacity_counterexample :
  rank (it_system (data ionCore) ≫= sys_rarity) = Num 5
  /\ rank (c_rarity (chassis fullWorld)) = Num 1
  /\ notices (snd (handle defaultSettings (Drop "Item" ionCore) fullWorld))
     = (notices fullWorld ++ [ErrorNoSlots])%list
  /\ ~ In (ErrorRarity "legendary" "common")
         (notices (snd (handle defaultSettings (Drop "Item" ionCore)
                          fullWorld))).
Proof.
  vm_compute. repeat split; try reflexivity.
  intros H. repeat (destruct H as [H | H]; [discriminate |]). destruct H.
Qed.

(** ** The slot bound along a session *)

Lemma installCount_app (ds : list Dialog) (d : Dialog) :
  installCount (ds ++ [d])
  = (installCount ds + if isInstall d then 1 else 0)%nat.
Proof.
  unfold installCount. rewrite List.filter_app, length_app. cbn.
  destruct (isInstall d); reflexivity.
Qed.

Lemma installCount_delete (ds : list Dialog) (i : nat) (d : Dialog) :
  ds !! i = Some d ->
  (installCount (delete i ds) + if isInstall d then 1 else 0)%nat
  = installCount ds.
Proof.
  revert i. induction ds as [| d0 ds IH]; intros i Hi; [discriminate |].
  destruct i as [| i]; cbn in Hi.
  - injection Hi as ->. unfold installCount. cbn.
    destruct (isInstall d); cbn; rewrite ?Nat.add_1_r, ?Nat.add_0_r;
      reflexivity.
  - specialize (IH i Hi). unfold installCount in *. cbn.
    destruct (isInstall d0); cbn; [f_equal |]; exact IH.
Qed.

Lemma installCount_delete_le (ds : list Dialog) (i : nat) :
  (installCount (delete i ds) <= installCount ds)%nat.
Proof.
  unfold installCount. revert i.
  induction ds as [| d0 ds IH]; intros i; [destruct i; cbn; lia |].
  destruct i as [| i].
  - cbn. destruct (isInstall d0); cbn; lia.
  - specialize (IH i). cbn. destruct (isInstall d0); cbn.
    + apply le_n_S. exact IH.
    + exact IH.
Qed.

(** What an install and a removal do to the three things the bound
    depends on. *)
Lemma performInstall_bound (modItem : Item) (w : World) :
  let w' := snd (performInstall modItem w) in
  c_rarity (chassis w') = c_rarity (chassis w)
  /\ (length (installedMods (chassis w'))
      <= S (length (installedMods (chassis w))))%nat
  /\ dialogs w' = dialogs w.
Proof.
  cbn zeta. rewrite performInstall_eq.
  destruct (getInjectedProperties modItem) as [props | e];
    [| cbn; repeat split; lia].
  destruct (it_system (data modItem)) as [system |];
    [| cbn; repeat split; lia].
  cbn [snd chassis dialogs]. unfold installOnChassis.
  destruct (nonEmpty props); cbn; rewrite length_app; cbn;
    repeat split; lia.
Qed.

Lemma performRemove_bound (modId : string) (isSalvaged : bool) (w : World) :
  let w' := snd (performRemove modId isSalvaged w) in
  c_rarity (chassis w') = c_rarity (chassis w)
  /\ (length (installedMods (chassis w'))
      <= length (installedMods (chassis w)))%nat
  /\ dialogs w' = dialogs w.
Proof.
  cbn zeta. rewrite performRemove_chassis.
  rewrite removeFromChassis_rarity, removeFromChassis_mods.
  repeat split.
  - apply List.filter_length_le.
  - apply performRemove_frame.
Qed.

Lemma proceed_bound (d : Dialog) (w : World) :
  let w' := snd (proceed d w) in
  c_rarity (chassis w') = c_rarity (chassis w)
  /\ (length (installedMods (chassis w'))
      <= length (installedMods (chassis w))
         + if isInstall d then 1 else 0)%nat
  /\ dialogs w' = dialogs w.
Proof.
  unfold proceed, isInstall. destruct (dlg_mod d) as [modItem | modData].
  - destruct (performInstall_bound modItem w) as (Hr & Hl & Hd).
    repeat split; [exact Hr | lia | exact Hd].
  - destruct (performRemove_bound (im_id modData) true w) as (Hr & Hl & Hd).
    repeat split; [exact Hr | lia | exact Hd].
Qed.

Lemma rollCallback_bound (d : Dialog) (destroyChecked : bool) (total : Z)
    (w : World) :
  let w' := snd (rollCallback d destroyChecked total w) in
  c_rarity (chassis w') = c_rarity (chassis w)
  /\ (length (installedMods (chassis w'))
      <= length (installedMods (chassis w))
         + if isInstall d then 1 else 0)%nat
  /\ dialogs w' = dialogs w.
Proof.
  cbn zeta. remember (rollCallback d destroyChecked total w) as r eqn:Hr.
  unfold rollCallback, bind at 1, getWorld at 1 in Hr.
  destruct (actorItems w); [| subst r; unfold ret; sameWorld].
  destruct (jsGe (Num total) (dlg_dc d)).
  - unfold bind at 1, notify at 1, modifyWorld at 1 in Hr. subst r.
    match goal with
    | |- context [proceed d ?w1] =>
        destruct (proceed_bound d w1) as (Hr & Hl & Hd)
    end.
    repeat split; assumption.
  - destruct (isInstall d) eqn:Hinst; cbn [negb andb] in Hr;
      [subst r; unfold notify, modifyWorld; sameWorld |].
    destruct destroyChecked;
      [| subst r; unfold notify, modifyWorld; sameWorld].
    unfold bind at 1, notify at 1, modifyWorld at 1 in Hr. subst r.
    match goal with
    | |- context [performRemove ?i false ?w1] =>
        destruct (performRemove_bound i false w1) as (Hr & Hl & Hd)
    end.
    repeat split; [exact Hr | | exact Hd].
    etransitivity; [exact Hl |]. apply Nat.le_add_r.
Qed.

(** [a < b] on two whole numbers is the order of the integers. *)
Lemma numLt_whole (a b : Z) :
  numLt (inject_Z a) (inject_Z b) = true -> a < b.
Proof.
  unfold numLt. intros Hlt. apply negb_true_iff in Hlt.
  destruct (Z.lt_ge_cases a b) as [Hab | Hba]; [exact Hab |].
  exfalso. rewrite Zle_Qle in Hba. apply Qle_bool_iff in Hba. congruence.
Qed.

Section SlotBound.

Variable settings : Settings.
Variable k : Z.

Lemma wholeSetting_maxSlots (w : World) :
  wholeSetting settings k w ->
  maxSlots settings (c_rarity (chassis w)) = inject_Z k.
Proof. unfold wholeSetting, maxSlots. intros ->. reflexivity. Qed.

Lemma step_keeps_reserve (w : World) (ev : Event) :
  wholeSetting settings k w ->
  reserveOk k w ->
  dropsAlone w ev = true ->
  c_rarity (chassis (step settings w ev)) = c_rarity (chassis w)
  /\ reserveOk k (step settings w ev).
Proof.
  intros Hwhole. apply wholeSetting_maxSlots in Hwhole as Hmax.
  unfold reserveOk, slotUsage, step. intros Hinv Halone.
  remember (handle settings ev w) as r eqn:Hr.
  destruct ev as [dropType modItem | modId | i destroyChecked total | i | i].
  - (* Drop *)
    cbn in Halone. apply Nat.eqb_eq in Halone.
    unfold handle, bind at 1, getWorld at 1 in Hr.
    destruct (isChassisType (chassis w)); [| subst r; split; [reflexivity | exact Hinv]].
    unfold onDrop in Hr.
    destruct (negb (String.eqb dropType "Item")); [subst r; split; [reflexivity | exact Hinv] |].
    unfold bind at 1, lift at 1 in Hr.
    destruct (isModification (Some modItem)) as [isMod | e];
      [| subst r; split; [reflexivity | exact Hinv]].
    destruct (negb (truthy isMod)); [subst r; split; [reflexivity | exact Hinv] |].
    unfold bind at 1, getWorld at 1 in Hr.
    destruct (hasAvailableSlots settings (chassis w)) eqn:Hslots;
      cbn [negb] in Hr; [| subst r; split; [reflexivity | exact Hinv]].
    unfold hasAvailableSlots in Hslots. rewrite Hmax in Hslots.
    apply numLt_whole in Hslots.
    unfold validateRarity, bind at 1 in Hr. unfold bind at 1, lift at 1 in Hr.
    destruct (it_system (data modItem)) as [system |];
      [| subst r; split; [reflexivity | exact Hinv]].
    cbn [dot] in Hr.
    destruct (jsGt _ _); [subst r; split; [reflexivity | exact Hinv] |].
    unfold ret in Hr. cbn [negb] in Hr.
    rewrite showModActionDialog_dc in Hr. subst r.
    cbn [snd setDialogs chassis dialogs]. split; [reflexivity |].
    rewrite installCount_app. cbn [isInstall dlg_mod]. lia.
  - (* ClickDelete *)
    unfold handle, bind at 1, getWorld at 1 in Hr.
    destruct (isChassisType (chassis w)); [| subst r; split; [reflexivity | exact Hinv]].
    unfold onModDelete, bind at 1, getWorld at 1 in Hr.
    destruct (List.find _ _) as [modData |]; [| subst r; split; [reflexivity | exact Hinv]].
    rewrite showModActionDialog_dc in Hr. subst r.
    cbn [snd setDialogs chassis dialogs]. split; [reflexivity |].
    rewrite installCount_app. cbn [isInstall dlg_mod]. lia.
  - (* DialogRoll *)
    unfold handle, bind at 1, getWorld at 1 in Hr.
    destruct (dialogs w !! i) as [d |] eqn:Hi; [| subst r; split; [reflexivity | exact Hinv]].
    unfold bind at 1, closeDialog, modifyWorld in Hr. subst r.
    match goal with
    | |- context [rollCallback d destroyChecked total ?w1] =>
        destruct (rollCallback_bound d destroyChecked total w1)
          as (Hr & Hl & Hd)
    end.
    rewrite Hd. cbn [setDialogs chassis dialogs] in *.
    split; [exact Hr |].
    pose proof (installCount_delete (dialogs w) i d Hi) as Hcount.
    destruct (isInstall d); lia.
  - (* DialogDirect *)
    unfold handle, bind at 1, getWorld at 1 in Hr.
    destruct (dialogs w !! i) as [d |] eqn:Hi; [| subst r; split; [reflexivity | exact Hinv]].
    unfold bind at 1, closeDialog, modifyWorld, directCallback in Hr. subst r.
    match goal with
    | |- context [proceed d ?w1] =>
        destruct (proceed_bound d w1) as (Hr & Hl & Hd)
    end.
    rewrite Hd. cbn [setDialogs chassis dialogs] in *.
    split; [exact Hr |].
    pose proof (installCount_delete (dialogs w) i d Hi) as Hcount.
    destruct (isInstall d); lia.
  - (* DialogCancel *)
    unfold handle, closeDialog, modifyWorld in Hr. subst r.
    cbn [snd setDialogs chassis dialogs]. split; [reflexivity |].
    pose proof (installCount_delete_le (dialogs w) i). lia.
Qed.

Lemma serialized_keeps_reserve (evs : list Event) :
  forall w : World,
    wholeSetting settings k w ->
    reserveOk k w ->
    serialized settings w evs = true ->
    Forall (fun w' => wholeSetting settings k w' /\ reserveOk k w')
      (trace settings w evs).
Proof.
  induction evs as [| ev evs IH]; intros w Hwhole Hinv Hser; cbn [trace].
  - constructor; [split; assumption | constructor].
  - cbn [serialized] in Hser. apply andb_true_iff in Hser as [Halone Hser].
    constructor; [split; assumption |].
    destruct (step_keeps_reserve w ev Hwhole Hinv Halone) as [Hrarity Hnext].
    apply IH; [| exact Hnext | exact Hser].
    unfold wholeSetting in *. rewrite Hrarity. exact Hwhole.
Qed.

(** C2, as the code has it.  Let the slot setting of the rarity of the
    chassis be registered and hold a whole number.  Start from a
    chassis within that maximum with no install dialog open, and let
    every install be settled (rolled, taken directly or cancelled)
    before the next modification is dropped; removals may come at any
    time.  Then at every point of the session the number of entries in
    the list is at most the maximum configured for the rarity of the
    chassis. *)
Theorem slots_bounded_when_serialized (w : World) (evs : list Event) :
  wholeSetting settings k w ->
  withinSlots settings w ->
  installCount (dialogs w) = 0%nat ->
  serialized settings w evs = true ->
  Forall (withinSlots settings) (trace settings w evs).
Proof.
  intros Hwhole Hslots Hnone Hser.
  assert (Hinv : reserveOk k w).
  { unfold reserveOk, withinSlots in *.
    rewrite (wholeSetting_maxSlots w Hwhole) in Hslots.
    rewrite <- Zle_Qle in Hslots. rewrite Hnone. cbn. lia. }
  pose proof (serialized_keeps_reserve evs w Hwhole Hinv Hser) as Hall.
  eapply Forall_impl; [exact Hall |].
  intros w' [Hwhole' Hinv']. unfold withinSlots.
  rewrite (wholeSetting_maxSlots w' Hwhole'). rewrite <- Zle_Qle.
  unfold reserveOk in Hinv'. lia.
Qed.

(** The last world of the trace is the world the session ends in. *)
Lemma run_in_trace (evs : list Event) :
  forall w : World, In (run settings w evs) (trace settings w evs).
Proof.
  induction evs as [| ev evs IH]; intros w; cbn [run trace fold_left].
  - left. reflexivity.
  - right. apply IH.
Qed.

End SlotBound.

Lemma slots_bounded_when_serialized_witness :
  Forall (withinSlots defaultSettings)
    (trace defaultSettings (looseWorld "common")
       [ Drop "Item" keenArray; DialogDirect 0;
         Drop "Item" silentCarrier; DialogDirect 0;
         Drop "Item" rapidLoader; ClickDelete "mod2"; DialogDirect 0;
         Drop "Item" rapidLoader; DialogDirect 0 ]).
Proof.
  apply (slots_bounded_when_serialized defaultSettings 2).
  - vm_compute. reflexivity.
  - unfold withinSlots. vm_compute. discriminate.
  - reflexivity.
  - vm_compute. reflexivity.
Defined.

(** The whole number is needed: with the "common" setting at 2.5 the
    gate still passes at two entries, and a session that settles every
    install before the next drop ends with three. *)
Lemma fractional_setting_exceeds_slots :
  let w' :=
    run halfSlotSettings (looseWorld "common")
      [ Drop "Item" keenArray; DialogDirect 0;
        Drop "Item" silentCarrier; DialogDirect 0;
        Drop "Item" rapidLoader; DialogDirect 0 ] in
  serialized halfSlotSettings (looseWorld "common")
    [ Drop "Item" keenArray; DialogDirect 0;
      Drop "Item" silentCarrier; DialogDirect 0;
      Drop "Item" rapidLoader; DialogDirect 0 ] = true
  /\ maxSlots halfSlotSettings (c_rarity (chassis w')) = Qmake 5 2
  /\ slotUsage w' = 3
  /\ ~ withinSlots halfSlotSettings w'.
Proof.
  unfold withinSlots. vm_compute.
  repeat split; try reflexivity. intros H. apply H. reflexivity.
Qed.

(** C2 as stated fails: three modifications are dropped on an empty
    "common" chassis (two slots) one after the other; each drop finds
    a free slot and opens its dialog.  The three dialogs are then
    answered "Direct", and the list holds three entries. *)
Lemma overlapping_dialogs_exceed_slots_counterexample :
  let w := looseWorld "common" in
  let w' :=
    run defaultSettings w
      [ Drop "Item" keenArray; Drop "Item" silentCarrier;
        Drop "Item" rapidLoader;
        DialogDirect 0; DialogDirect 0; DialogDirect 0 ] in
  slotUsage w = 0
  /\ maxSlots defaultSettings (c_rarity (chassis w')) = inject_Z 2
  /\ map im_id (installedMods (chassis w')) = ["mod2"; "mod4"; "mod5"]
  /\ slotUsage w' = 3
  /\ ~ withinSlots defaultSettings w'
  /\ ~ Forall (withinSlots defaultSettings)
        (trace defaultSettings w
           [ Drop "Item" keenArray; Drop "Item" silentCarrier;
             Drop "Item" rapidLoader;
             DialogDirect 0; DialogDirect 0; DialogDirect 0 ]).
Proof.
  assert (Hover : ~ withinSlots defaultSettings
                     (run defaultSettings (looseWorld "common")
                        [ Drop "Item" keenArray; Drop "Item" silentCarrier;
                          Drop "Item" rapidLoader;
                          DialogDirect 0; DialogDirect 0; DialogDirect 0 ])).
  { unfold withinSlots. vm_compute. intros H. apply H. reflexivity. }
  cbn zeta. repeat split; try exact Hover; try (vm_compute; reflexivity).
  intros Hall. apply Hover.
  rewrite List.Forall_forall in Hall. apply Hall. apply run_in_trace.
Qed.

(** * Further properties *)

(** ** RarityScale: bounds and the registered defaults *)

Lemma rank_of_key (k : string) :
  (forall n, orNum (jsLookup rarityScale k) 1 = Num n -> 1 <= n <= 6)
  /\ (forall d, orNum (jsLookup rarities k) 14 = Num d -> 10 <= d <= 30)
  /\ (isKey k = true ->
      exists n, orNum (jsLookup rarityScale k) 1 = Num n
                /\ orNum (jsLookup rarities k) 14 = Num (4 * n + 6)).
Proof.
  unfold isKey, jsLookup. cbn [assoc rarityScale rarities].
  split; [| split].
  - intros n. byKey k; cbn -[inList]; try (intros [= <-]; lia).
    destruct (inList k objectPrototypeKeys); cbn;
      [intros H; discriminate H | intros [= <-]; lia].
  - intros d. byKey k; cbn -[inList]; try (intros [= <-]; lia).
    destruct (inList k objectPrototypeKeys); cbn;
      [intros H; discriminate H | intros [= <-]; lia].
  - byKey k; cbn; try (intros H; discriminate H); intros _;
      eexists; (split; [reflexivity | reflexivity]).
Qed.

(** X1. Whatever the label, a rank that is a number lies between 1 and
    6 and a DC that is a number lies between 10 and 30; for a label
    whose normal form is a key of the tables both are numbers and the
    DC is four times the rank plus six. *)
Theorem rank_dc_bounds (r : option string) :
  (forall n, rank r = Num n -> 1 <= n <= 6)
  /\ (forall d, dcOfLabel r = Num d -> 10 <= d <= 30)
  /\ (isKey (rarityStr r) = true ->
      exists n, rank r = Num n /\ dcOfLabel r = Num (4 * n + 6)).
Proof. exact (rank_of_key (rarityStr r)). Qed.

Lemma rank_dc_bounds_witness :
  exists n, rank (Some "Very Rare") = Num n
            /\ dcOfLabel (Some "Very Rare") = Num (4 * n + 6)
            /\ 1 <= n <= 6.
Proof.
  destruct (rank_dc_bounds (Some "Very Rare")) as (Hrank & _ & Hkey).
  destruct (Hkey eq_refl) as (n & Hn & Hdc).
  exists n. repeat split; try assumption; apply (Hrank n Hn).
Defined.

(** X2. The [init] hook registers a slot setting for every key of the
    rank table: with the settings at their defaults a label whose
    normal form is a key gets the count written in [rarityDefaults],
    between 2 and 8, and the [?? 2] fallback is not reached. *)
Theorem registered_defaults (r : option string) :
  isKey (rarityStr r) = true ->
  exists n, assoc (rarityStr r) rarityDefaults = Some n
            /\ defaultSettings !! Js.concat2 "slots-" (rarityStr r)
               = Some (inject_Z n)
            /\ maxSlots defaultSettings r = inject_Z n
            /\ 2 <= n <= 8.
Proof.
  unfold maxSlots, isKey. generalize (rarityStr r) as k. intros k.
  cbn [assoc rarityScale rarityDefaults].
  byKey k; try (intros H; discriminate H); intros _; eexists;
    (split; [reflexivity |]); (split; [vm_compute; reflexivity |]);
    (split; [vm_compute; reflexivity | lia]).
Qed.

Lemma registered_defaults_witness :
  exists n, maxSlots defaultSettings (Some "Proto Type") = inject_Z n
            /\ 2 <= n <= 8.
Proof.
  destruct (registered_defaults (Some "Proto Type") eq_refl)
    as (n & _ & _ & Hmax & Hbound).
  exists n. split; assumption.
Defined.

(** ** SlotPolicy: the rarity gate *)

Lemma strLt_irrefl (s : string) : strLt s s = false.
Proof.
  induction s as [| c s IH]; [reflexivity |].
  cbn. rewrite N.ltb_irrefl. exact IH.
Qed.

Lemma jsGt_irrefl (a : NumLike) : jsGt a a = false.
Proof.
  destruct a as [n | k]; cbn; [apply Z.ltb_irrefl | apply strLt_irrefl].
Qed.

(** The gate with the [system] of the modification at hand. *)
Lemma validateRarity_eq (c : Chassis) (modItem : Item) (system : SystemData)
    (w : World) :
  it_system (data modItem) = Some system ->
  validateRarity c modItem w =
  if jsGt (rank (sys_rarity system)) (rank (c_rarity c))
  then (Ok false,
        snd (notify (ErrorRarity (rarityStr (sys_rarity system))
                       (rarityStr (c_rarity c))) w))
  else (Ok true, w).
Proof.
  intros Hsys. unfold validateRarity, bind at 1. unfold bind at 1, lift at 1.
  rewrite Hsys. cbn [dot]. unfold rank.
  destruct (jsGt _ _); reflexivity.
Qed.

(** X3. The rarity gate is lenient.  A modification whose label has
    the same normal form as the label of the chassis passes, whatever
    the label is; so does a modification with no label at all, on any
    chassis.  Passing leaves the world as it was, with no notice. *)
Theorem validateRarity_lenient (c : Chassis) (modItem : Item)
    (system : SystemData) (w : World) :
  it_system (data modItem) = Some system ->
  (rarityStr (sys_rarity system) = rarityStr (c_rarity c) ->
     validateRarity c modItem w = (Ok true, w))
  /\ (Js.truthyStr (sys_rarity system) = false ->
      validateRarity c modItem w = (Ok true, w)).
Proof.
  intros Hsys. rewrite (validateRarity_eq c modItem system w Hsys). split.
  - intros Hsame. unfold rank. rewrite Hsame.
    rewrite jsGt_irrefl. reflexivity.
  - intros Hmissing.
    assert (Hrank : rank (sys_rarity system) = Num 1).
    { unfold rank, rarityStr. rewrite orStr_falsy by exact Hmissing.
      reflexivity. }
    rewrite Hrank.
    destruct (rank (c_rarity c)) as [b |] eqn:Hb; [| reflexivity].
    destruct (rank_of_key (rarityStr (c_rarity c))) as (Hbound & _).
    specialize (Hbound b Hb). cbn.
    destruct (Z.ltb_spec b 1); [lia | reflexivity].
Qed.

Lemma validateRarity_lenient_witness :
  validateRarity (sampleChassis "Un Common") keenEdge (ownedWorld "Un Common")
  = (Ok true, ownedWorld "Un Common").
Proof.
  destruct (validateRarity_lenient (sampleChassis "Un Common") keenEdge
              (default {| sys_description := None; sys_rarity := None;
                          sys_weight := None; sys_price := None;
                          sys_properties := None; sys_type := None |}
                 (it_system sampleMod))
              (ownedWorld "Un Common") eq_refl) as [Hsame _].
  exact (Hsame eq_refl).
Defined.

(** ** The drop handler and the dialog buttons *)

Lemma isModification_boolean (item : Item) :
  exists b : bool, isModification (Some item) = Ok (Some b).
Proof.
  unfold isModification.
  destruct (truthy _); [eexists; reflexivity |].
  destruct (Js.includes "modifications" _); [eexists; reflexivity |].
  match goal with
  | |- exists b, Ok (orB (orB ?a (Some ?x)) (Some ?y)) = _ =>
      destruct (orB_boolean a x y) as [b Hb]; exists b; rewrite Hb;
      reflexivity
  end.
Qed.

(** The drop handler in one equation. *)
Lemma handle_drop_eq (settings : Settings) (dropType : string)
    (modItem : Item) (w : World) :
  handle settings (Drop dropType modItem) w =
  if negb (isChassisType (chassis w)) then (Ok tt, w)
  else if negb (String.eqb dropType "Item") then (Ok tt, w)
  else
    match isModification (Some modItem) with
    | Throw e => (Throw e, w)
    | Ok isMod =>
        if negb (truthy isMod)
        then notify (WarnNotModification (it_name (data modItem))) w
        else if negb (hasAvailableSlots settings (chassis w))
        then notify ErrorNoSlots w
        else
          match it_system (data modItem) with
          | None => (Throw (TypeError "mod.system.rarity"), w)
          | Some system =>
              if jsGt (rank (sys_rarity system)) (rank (c_rarity (chassis w)))
              then notify (ErrorRarity (rarityStr (sys_rarity system))
                             (rarityStr (c_rarity (chassis w)))) w
              else
                (Ok tt,
                 setDialogs
                   (dialogs w ++
                    [ {| dlg_mod := ModItem modItem;
                         dlg_dc := dcOfLabel (sys_rarity system) |} ]) w)
          end
    end.
Proof.
  unfold handle, bind at 1, getWorld at 1.
  destruct (isChassisType (chassis w)); [| reflexivity]. cbn [negb].
  unfold onDrop.
  destruct (negb (String.eqb dropType "Item")); [reflexivity |].
  unfold bind at 1, lift at 1.
  destruct (isModification (Some modItem)) as [isMod | e]; [| reflexivity].
  destruct (negb (truthy isMod)); [reflexivity |].
  unfold bind at 1, getWorld at 1.
  destruct (hasAvailableSlots settings (chassis w)); cbn [negb];
    [| reflexivity].
  unfold bind at 1.
  destruct (it_system (data modItem)) as [system |] eqn:Hsys.
  - rewrite (validateRarity_eq _ _ system w Hsys).
    destruct (jsGt _ _); cbn [negb]; [reflexivity |].
    rewrite showModActionDialog_dc. cbn [mbind option_bind].
    rewrite Hsys. reflexivity.
  - unfold validateRarity, bind at 1. unfold bind at 1, lift at 1.
    rewrite Hsys. reflexivity.
Qed.

(** X4. A drop on the sheet of a weapon or a piece of equipment opens
    a dialog exactly when every gate passes: the drop is an item, the
    classifier accepts it, the chassis has a free slot, and the rank of
    the modification is not above the rank of the chassis.  The dialog
    it opens is an install dialog for the dropped item, its DC is the
    DC of the label of the modification, not of the chassis, and
    nothing else in the world changes. *)
Theorem drop_opens_dialog_iff (settings : Settings) (w : World)
    (dropType : string) (modItem : Item) :
  isChassisType (chassis w) = true ->
  let r := handle settings (Drop dropType modItem) w in
  (dialogs (snd r) <> dialogs w ->
     dropType = "Item"
     /\ isModification (Some modItem) = Ok (Some true)
     /\ hasAvailableSlots settings (chassis w) = true
     /\ exists system,
          it_system (data modItem) = Some system
          /\ jsGt (rank (sys_rarity system)) (rank (c_rarity (chassis w)))
             = false)
  /\ (forall system,
        dropType = "Item" ->
        isModification (Some modItem) = Ok (Some true) ->
        hasAvailableSlots settings (chassis w) = true ->
        it_system (data modItem) = Some system ->
        jsGt (rank (sys_rarity system)) (rank (c_rarity (chassis w))) = false ->
        r = (Ok tt,
             setDialogs
               (dialogs w ++
                [ {| dlg_mod := ModItem modItem;
                     dlg_dc := dcOfLabel (sys_rarity system) |} ]) w)).
Proof.
  intros Htype r. subst r. rewrite handle_drop_eq, Htype. cbn [negb].
  split.
  - destruct (String.eqb_spec dropType "Item") as [-> | Hne]; cbn [negb];
      [| intros H; exfalso; apply H; reflexivity].
    destruct (isModification_boolean modItem) as [b ->].
    destruct b; cbn [truthy negb];
      [| intros H; exfalso; apply H; reflexivity].
    destruct (hasAvailableSlots settings (chassis w)); cbn [negb];
      [| intros H; exfalso; apply H; reflexivity].
    destruct (it_system (data modItem)) as [system |];
      [| intros H; exfalso; apply H; reflexivity].
    destruct (jsGt _ _) eqn:Hgt;
      [intros H; exfalso; apply H; reflexivity |].
    intros _. repeat split. exists system. split; [reflexivity | exact Hgt].
  - intros system -> Hmod Hslots Hsys Hgt.
    cbn [String.eqb Ascii.eqb Bool.eqb negb].
    rewrite Hmod, Hslots, Hsys, Hgt. reflexivity.
Qed.

Lemma drop_opens_dialog_iff_witness :
  handle defaultSettings (Drop "Item" keenEdge) (ownedWorld "rare")
  = (Ok tt,
     setDialogs
       [ {| dlg_mod := ModItem keenEdge; dlg_dc := Num 14 |} ]
       (ownedWorld "rare")).
Proof.
  destruct (drop_opens_dialog_iff defaultSettings (ownedWorld "rare")
              "Item" keenEdge eq_refl) as [_ Hopen].
  exact (Hopen
           (default {| sys_description := None; sys_rarity := None;
                       sys_weight := None; sys_price := None;
                       sys_properties := None; sys_type := None |}
              (it_system sampleMod))
           eq_refl eq_refl ltac:(vm_compute; reflexivity) eq_refl eq_refl).
Defined.

(** X5. An install that cannot read the name or the [system] of the
    modification raises before it writes: the world is exactly as it
    was. *)
Theorem performInstall_failure_is_atomic (modItem : Item) (w : World) :
  it_name (data modItem) = None \/ it_system (data modItem) = None ->
  exists e, performInstall modItem w = (Throw e, w).
Proof.
  intros Hmissing. rewrite performInstall_eq.
  destruct (getInjectedProperties modItem) as [props | e] eqn:Hprops;
    [| eexists; reflexivity].
  destruct (it_system (data modItem)) as [system |] eqn:Hsys;
    [| eexists; reflexivity].
  exfalso. destruct Hmissing as [Hname | Hnone]; [| discriminate].
  unfold getInjectedProperties in Hprops. rewrite Hname in Hprops.
  discriminate.
Qed.

Lemma performInstall_failure_is_atomic_witness :
  exists e,
    performInstall
      {| data := {| it_id := "x"; it_name := None; it_type := "loot";
                    it_img := None; it_system := None; it_effects := [];
                    flag_isWrappedMod := Some true;
                    flag_originalModData := None;
                    flag_sw5e_type := None; it_rest := [] |};
         uuid := None |} (ownedWorld "rare")
    = (Throw e, ownedWorld "rare").
Proof.
  apply performInstall_failure_is_atomic. left. reflexivity.
Defined.

(** X6. The "Roll Check" button.  On a chassis with no actor it does
    nothing at all, for an install and for a removal alike.  With an
    actor, a total that meets the DC reports the success and then does
    what the "Direct" button does; a total below the DC of an install
    dialog only warns that the installation failed.  A DC that is no
    number is never met. *)
Theorem roll_check (d : Dialog) (destroyChecked : bool) (total : Z)
    (w : World) :
  (actorItems w = None ->
     rollCallback d destroyChecked total w = (Ok tt, w))
  /\ (forall items, actorItems w = Some items ->
        jsGe (Num total) (dlg_dc d) = true ->
        rollCallback d destroyChecked total w
        = directCallback d (snd (notify InfoSuccess w)))
  /\ (forall items, actorItems w = Some items ->
        jsGe (Num total) (dlg_dc d) = false ->
        isInstall d = true ->
        rollCallback d destroyChecked total w = notify WarnInstallFailed w)
  /\ (forall k, dlg_dc d = NotNum k -> jsGe (Num total) (dlg_dc d) = false).
Proof.
  repeat split.
  - intros Hactor. unfold rollCallback, bind at 1, getWorld at 1.
    rewrite Hactor. reflexivity.
  - intros items Hactor Hpass.
    unfold rollCallback, bind at 1, getWorld at 1. rewrite Hactor, Hpass.
    reflexivity.
  - intros items Hactor Hfail Hinstall.
    unfold rollCallback, bind at 1, getWorld at 1.
    rewrite Hactor, Hfail, Hinstall. reflexivity.
  - intros k ->. reflexivity.
Qed.

Lemma roll_check_witness :
  rollCallback {| dlg_mod := ModItem keenEdge; dlg_dc := Num 14 |} false 9
    (ownedWorld "rare")
  = notify WarnInstallFailed (ownedWorld "rare")
  /\ rollCallback {| dlg_mod := ModEntry keenEntry; dlg_dc := Num 14 |} true 20
       twoKeenWorld
     = (Ok tt, twoKeenWorld).
Proof.
  split.
  - destruct (roll_check {| dlg_mod := ModItem keenEdge; dlg_dc := Num 14 |}
                false 9 (ownedWorld "rare")) as (_ & _ & Hfail & _).
    exact (Hfail [data keenEdge] eq_refl eq_refl eq_refl).
  - destruct (roll_check {| dlg_mod := ModEntry keenEntry; dlg_dc := Num 14 |}
                true 20 twoKeenWorld) as (Hnone & _).
    apply Hnone. vm_compute. reflexivity.
Defined.

(** X7. The effects an install projects.  The chassis gets one new
    effect per effect of the modification, after the ones it had and
    in their order; each is marked transferable, points at the chassis
    as its origin and is stamped with the id of the modification, and
    keeps its name and changes.  The entry stores the same effects,
    and for an unwrapped modification the stored payload is its own
    source, with its effects as they were. *)
Theorem install_projects_effects (w : World) (modItem : Item)
    (name : string) (system : SystemData) :
  it_name (data modItem) = Some name ->
  it_system (data modItem) = Some system ->
  let w' := snd (performInstall modItem w) in
  exists new entry,
    c_effects (chassis w') = (c_effects (chassis w) ++ new)%list
    /\ length new = length (it_effects (data modItem))
    /\ Forall (fun e => stampedFor (chassis w) (it_id (data modItem))
                          (ed_data e)) new
    /\ map (fun e => (fx_name (ed_data e), fx_changes (ed_data e))) new
       = map (fun e => (fx_name e, fx_changes e)) (it_effects (data modItem))
    /\ last (installedMods (chassis w')) = Some entry
    /\ im_effects entry = map ed_data new
    /\ (truthy (flag_isWrappedMod (data modItem)) = false ->
        im_originalData entry = Some (data modItem)).
Proof.
  intros Hname Hsys.
  destruct (getInjectedProperties_ok modItem name Hname) as [props Hprops].
  cbn zeta. rewrite performInstall_eq, Hprops, Hsys.
  cbn [snd chassis nextId].
  exists (withHostIds (nextId w) (projectedEffects (chassis w) modItem)).
  exists (installedEntry (chassis w) modItem props system).
  assert (Hids : forall effs n,
             map ed_id (withHostIds n effs) = seq n (length effs)).
  { induction effs as [| e effs IH]; intros n; cbn; [reflexivity |].
    rewrite IH. reflexivity. }
  assert (Hdata : forall effs n, map ed_data (withHostIds n effs) = effs).
  { induction effs as [| e effs IH]; intros n; cbn; [reflexivity |].
    rewrite IH. reflexivity. }
  assert (Hmods : installedMods
                    (installOnChassis (nextId w) modItem props system
                       (chassis w))
                  = (installedMods (chassis w)
                     ++ [installedEntry (chassis w) modItem props system])%list).
  { unfold installOnChassis. destruct (nonEmpty props); reflexivity. }
  assert (Heffs : c_effects
                    (installOnChassis (nextId w) modItem props system
                       (chassis w))
                  = (c_effects (chassis w)
                     ++ withHostIds (nextId w)
                          (projectedEffects (chassis w) modItem))%list).
  { unfold installOnChassis. destruct (nonEmpty props); reflexivity. }
  rewrite Hmods, Heffs.
  split; [reflexivity |].
  split.
  { rewrite <- (length_map ed_id), Hids, length_seq.
    unfold projectedEffects. apply length_map. }
  split.
  { apply List.Forall_forall. intros e Hin.
    apply (List.in_map ed_data) in Hin. rewrite Hdata in Hin.
    unfold projectedEffects in Hin. apply List.in_map_iff in Hin.
    destruct Hin as (e0 & <- & _). repeat split. }
  split.
  { rewrite <- (List.map_map ed_data
                  (fun e => (fx_name e, fx_changes e))).
    rewrite Hdata. unfold projectedEffects. rewrite List.map_map.
    reflexivity. }
  split; [apply last_snoc |].
  split; [rewrite Hdata; reflexivity |].
  intros Hplain. cbn [im_originalData installedEntry].
  unfold modDataOf. rewrite Hplain. reflexivity.
Qed.

Lemma install_projects_effects_witness :
  exists new,
    c_effects (chassis (snd (performInstall keenEdge (ownedWorld "rare"))))
    = new
    /\ length new = 1%nat
    /\ Forall (fun e => fx_sourceMod (ed_data e) = Some "mod1") new.
Proof.
  destruct (install_projects_effects (ownedWorld "rare") keenEdge "Keen Edge"
              (default {| sys_description := None; sys_rarity := None;
                          sys_weight := None; sys_price := None;
                          sys_properties := None; sys_type := None |}
                 (it_system sampleMod))
              eq_refl eq_refl)
    as (new & entry & Heffs & Hlen & Hstamp & _).
  exists new. split; [exact Heffs |]. split; [exact Hlen |].
  eapply List.Forall_impl; [| exact Hstamp].
  intros e (_ & _ & Hsrc). exact Hsrc.
Defined.

(** ** Sessions: what every event keeps *)

Lemma quiet_refl (w : World) : quiet w w.
Proof. repeat split. Qed.

Lemma quiet_notify (n : Notice) (w : World) : quiet w (snd (notify n w)).
Proof. repeat split. Qed.

Lemma quiet_setDialogs (ds : list Dialog) (w : World) :
  quiet w (setDialogs ds w).
Proof. repeat split. Qed.

Lemma proceed_shape (d : Dialog) (w0 w : World) :
  quiet w0 w -> shape w0 (snd (proceed d w)).
Proof.
  intros Hq. unfold proceed. destruct (dlg_mod d) as [modItem | modData].
  - right. left. exists w, modItem. split; [exact Hq | reflexivity].
  - right. right. exists w, (im_id modData), true.
    split; [exact Hq | reflexivity].
Qed.

Lemma quiet_trans (w0 w1 w2 : World) :
  quiet w0 w1 -> quiet w1 w2 -> quiet w0 w2.
Proof.
  unfold quiet. intros (Hc & Ha & Hw & Hn) (Hc' & Ha' & Hw' & Hn').
  repeat split; congruence.
Qed.

Lemma rollCallback_shape (d : Dialog) (destroyChecked : bool) (total : Z)
    (w0 w : World) :
  quiet w0 w -> shape w0 (snd (rollCallback d destroyChecked total w)).
Proof.
  intros Hq.
  remember (rollCallback d destroyChecked total w) as r eqn:Hr.
  unfold rollCallback, bind at 1, getWorld at 1 in Hr.
  destruct (actorItems w); [| subst r; left; exact Hq].
  destruct (jsGe (Num total) (dlg_dc d)).
  - unfold bind at 1 in Hr. subst r.
    apply proceed_shape.
    eapply quiet_trans; [exact Hq | apply quiet_notify].
  - destruct (isInstall d);
      [subst r; left; eapply quiet_trans; [exact Hq | apply quiet_notify] |].
    cbn [negb andb] in Hr.
    destruct destroyChecked;
      [| subst r; left; eapply quiet_trans; [exact Hq | apply quiet_notify]].
    unfold bind at 1 in Hr. subst r.
    right. right.
    exists (snd (notify ErrorDestroyedOnFailure w)), (modArgId (dlg_mod d)),
      false.
    split; [| reflexivity].
    eapply quiet_trans; [exact Hq | apply quiet_notify].
Qed.

(** Every event leaves the world in one of the three shapes; a drop,
    an uninstall click and a cancel leave it quiet. *)
Lemma step_shape (settings : Settings) (w : World) (ev : Event) :
  shape w (step settings w ev)
  /\ (match ev with
      | Drop _ _ | ClickDelete _ | DialogCancel _ => True
      | _ => False
      end -> quiet w (step settings w ev)).
Proof.
  unfold step.
  destruct ev as [dropType modItem | modId | i destroyChecked total | i | i].
  - assert (Hq : quiet w (snd (handle settings (Drop dropType modItem) w))).
    { rewrite handle_drop_eq.
      destruct (negb (isChassisType (chassis w))); [apply quiet_refl |].
      destruct (negb (String.eqb dropType "Item")); [apply quiet_refl |].
      destruct (isModification (Some modItem)) as [isMod | e];
        [| apply quiet_refl].
      destruct (negb (truthy isMod)); [apply quiet_notify |].
      destruct (negb (hasAvailableSlots settings (chassis w)));
        [apply quiet_notify |].
      destruct (it_system (data modItem)) as [system |];
        [| apply quiet_refl].
      destruct (jsGt _ _); [apply quiet_notify | apply quiet_setDialogs]. }
    split; [left; exact Hq | intros _; exact Hq].
  - assert (Hq : quiet w (snd (handle settings (ClickDelete modId) w))).
    { unfold handle, bind at 1, getWorld at 1.
      destruct (isChassisType (chassis w)); [| apply quiet_refl].
      unfold onModDelete, bind at 1, getWorld at 1.
      destruct (List.find _ _) as [modData |]; [| apply quiet_refl].
      rewrite showModActionDialog_dc. apply quiet_setDialogs. }
    split; [left; exact Hq | intros _; exact Hq].
  - split; [| intros []].
    remember (handle settings (DialogRoll i destroyChecked total) w) as r
      eqn:Hr.
    unfold handle, bind at 1, getWorld at 1 in Hr.
    destruct (dialogs w !! i) as [d |]; [| subst r; left; apply quiet_refl].
    unfold bind at 1, closeDialog, modifyWorld in Hr. subst r.
    apply rollCallback_shape. apply quiet_setDialogs.
  - split; [| intros []].
    remember (handle settings (DialogDirect i) w) as r eqn:Hr.
    unfold handle, bind at 1, getWorld at 1 in Hr.
    destruct (dialogs w !! i) as [d |]; [| subst r; left; apply quiet_refl].
    unfold bind at 1, closeDialog, modifyWorld, directCallback in Hr. subst r.
    apply proceed_shape. apply quiet_setDialogs.
  - assert (Hq : quiet w (snd (handle settings (DialogCancel i) w))).
    { unfold handle, closeDialog, modifyWorld. apply quiet_setDialogs. }
    split; [left; exact Hq | intros _; exact Hq].
Qed.

(** A property that notices and dialogs do not touch, and that an
    install and a removal keep, holds all along every session. *)
Lemma session_invariant (I : World -> Prop) :
  (forall w w', quiet w w' -> I w -> I w') ->
  (forall modItem w, I w -> I (snd (performInstall modItem w))) ->
  (forall modId isSalvaged w,
      I w -> I (snd (performRemove modId isSalvaged w))) ->
  forall settings evs w, I w -> Forall I (trace settings w evs).
Proof.
  intros Hquiet Hinstall Hremove settings evs.
  induction evs as [| ev evs IH]; intros w Hw; cbn [trace].
  - constructor; [exact Hw | constructor].
  - constructor; [exact Hw |]. apply IH.
    destruct (step_shape settings w ev) as [Hshape _].
    destruct Hshape as [Hq | [(w1 & modItem & Hq & ->)
                             | (w1 & modId & isSalvaged & Hq & ->)]].
    + exact (Hquiet _ _ Hq Hw).
    + apply Hinstall. exact (Hquiet _ _ Hq Hw).
    + apply Hremove. exact (Hquiet _ _ Hq Hw).
Qed.

(** X8. The sheet itself writes nothing: a drop, a click on an
    uninstall control and a cancelled dialog leave the chassis, the
    inventory of the actor, the world directory and the host ids as
    they were; only notices and dialogs change. *)
Theorem sheet_events_are_quiet (settings : Settings) (w : World) (ev : Event) :
  match ev with
  | Drop _ _ | ClickDelete _ | DialogCancel _ => True
  | _ => False
  end ->
  quiet w (step settings w ev).
Proof. exact (proj2 (step_shape settings w ev)). Qed.

Lemma sheet_events_are_quiet_witness :
  quiet fullWorld (step defaultSettings fullWorld (Drop "Item" ionCore)).
Proof.
  exact (sheet_events_are_quiet defaultSettings fullWorld
           (Drop "Item" ionCore) I).
Defined.

(** ** Sessions: host ids, orphans, identity, tags *)

Lemma withHostIds_ids (effs : list EffectData) (n : nat) :
  map ed_id (withHostIds n effs) = seq n (length effs).
Proof.
  revert n. induction effs as [| e effs IH]; intros n; cbn; [reflexivity |].
  rewrite IH. reflexivity.
Qed.

Lemma withHostIds_data (effs : list EffectData) (n : nat) :
  map ed_data (withHostIds n effs) = effs.
Proof.
  revert n. induction effs as [| e effs IH]; intros n; cbn; [reflexivity |].
  rewrite IH. reflexivity.
Qed.

Lemma installOnChassis_mods (n : nat) (modItem : Item) (props : list string)
    (system : SystemData) (c : Chassis) :
  installedMods (installOnChassis n modItem props system c)
  = (installedMods c ++ [installedEntry c modItem props system])%list.
Proof. unfold installOnChassis. destruct (nonEmpty props); reflexivity. Qed.

Lemma installOnChassis_effects (n : nat) (modItem : Item)
    (props : list string) (system : SystemData) (c : Chassis) :
  c_effects (installOnChassis n modItem props system c)
  = (c_effects c ++ withHostIds n (projectedEffects c modItem))%list.
Proof. unfold installOnChassis. destruct (nonEmpty props); reflexivity. Qed.

Lemma installOnChassis_identity (n : nat) (modItem : Item)
    (props : list string) (system : SystemData) (c : Chassis) :
  sameChassisIdentity c (installOnChassis n modItem props system c).
Proof.
  unfold installOnChassis, sameChassisIdentity.
  destruct (nonEmpty props); repeat split.
Qed.

Lemma removeFromChassis_identity (modId : string) (c : Chassis) :
  sameChassisIdentity c (removeFromChassis modId c).
Proof.
  unfold removeFromChassis, sameChassisIdentity. cbn.
  destruct (nonEmpty _); cbn;
    destruct (List.find _ _) as [m |]; cbn;
    try destruct (nonEmpty (im_properties m)); repeat split.
Qed.

Lemma performRemove_nextId (modId : string) (isSalvaged : bool) (w : World) :
  (nextId w <= nextId (snd (performRemove modId isSalvaged w)))%nat.
Proof.
  rewrite performRemove_eq. cbn zeta.
  destruct isSalvaged; cbn [negb];
    destruct (actorItems w);
    destruct (List.find (idIs modId) (installedMods (chassis w))) as [m |];
    cbn [mbind option_bind];
    try destruct (im_originalData m) as [orig |];
    try destruct (lootWrapper _ orig);
    cbn; lia.
Qed.

Lemma NoDup_map_filter {A B} (f : A -> B) (P : A -> bool) (l : list A) :
  NoDup (map f l) -> NoDup (map f (List.filter P l)).
Proof.
  induction l as [| x l IH]; cbn; [intros; constructor |].
  intros Hnd. apply NoDup_cons in Hnd as [Hnotin Hnd].
  destruct (P x); cbn; [| exact (IH Hnd)].
  apply NoDup_cons. split; [| exact (IH Hnd)].
  intros Hin. apply Hnotin.
  apply list_elem_of_In in Hin. apply list_elem_of_In.
  apply List.in_map_iff in Hin. destruct Hin as (y & Hy & Hin).
  apply List.filter_In in Hin as [Hin _].
  apply List.in_map_iff. exists y. split; assumption.
Qed.

Lemma removeFromChassis_effects_sub (modId : string) (c : Chassis) :
  exists P, c_effects (removeFromChassis modId c)
            = List.filter P (c_effects c).
Proof.
  rewrite removeFromChassis_effects. cbn zeta.
  destruct (nonEmpty _); [eexists; reflexivity |].
  exists (fun _ => true). symmetry. apply List.forallb_filter_id.
  apply List.forallb_forall. reflexivity.
Qed.

Lemma hostIdsOk_quiet (w w' : World) : quiet w w' -> hostIdsOk w -> hostIdsOk w'.
Proof.
  unfold quiet, hostIdsOk. intros (Hc & _ & _ & Hn). rewrite Hc, Hn. tauto.
Qed.

Lemma hostIdsOk_install (modItem : Item) (w : World) :
  hostIdsOk w -> hostIdsOk (snd (performInstall modItem w)).
Proof.
  intros [Hnd Hlt]. rewrite performInstall_eq.
  destruct (getInjectedProperties modItem) as [props | e];
    [| split; assumption].
  destruct (it_system (data modItem)) as [system |]; [| split; assumption].
  unfold hostIdsOk. cbn [snd chassis nextId].
  rewrite installOnChassis_effects.
  assert (Hlen : length (projectedEffects (chassis w) modItem)
                 = length (it_effects (data modItem)))
    by (unfold projectedEffects; apply length_map).
  split.
  - rewrite map_app, withHostIds_ids. apply NoDup_app. repeat split.
    + exact Hnd.
    + intros id Hold Hnew.
      apply list_elem_of_In in Hold. apply list_elem_of_In in Hnew.
      apply List.in_map_iff in Hold. destruct Hold as (e & <- & Hin).
      apply List.in_seq in Hnew.
      rewrite List.Forall_forall in Hlt. specialize (Hlt e Hin). lia.
    + apply NoDup_ListNoDup. apply List.seq_NoDup.
  - apply Forall_app. split.
    + eapply Forall_impl; [exact Hlt |]. intros e He. cbn in He. lia.
    + apply List.Forall_forall. intros e Hin.
      apply (List.in_map ed_id) in Hin. rewrite withHostIds_ids in Hin.
      apply List.in_seq in Hin. lia.
Qed.

Lemma hostIdsOk_remove (modId : string) (isSalvaged : bool) (w : World) :
  hostIdsOk w -> hostIdsOk (snd (performRemove modId isSalvaged w)).
Proof.
  intros [Hnd Hlt]. unfold hostIdsOk.
  pose proof (performRemove_nextId modId isSalvaged w) as Hnext.
  rewrite performRemove_chassis.
  destruct (removeFromChassis_effects_sub modId (chassis w)) as [P ->].
  split.
  - apply NoDup_map_filter. exact Hnd.
  - apply List.Forall_forall. intros e Hin.
    apply List.filter_In in Hin as [Hin _].
    rewrite List.Forall_forall in Hlt. specialize (Hlt e Hin). lia.
Qed.

Lemma NoDup_map_inj {A B} (f : A -> B) (l : list A) (x y : A) :
  NoDup (map f l) -> In x l -> In y l -> f x = f y -> x = y.
Proof.
  induction l as [| z l IH]; cbn; [intros _ [] |].
  intros Hnd Hx Hy Heq. apply NoDup_cons in Hnd as [Hnotin Hnd].
  destruct Hx as [-> | Hx], Hy as [-> | Hy].
  - reflexivity.
  - exfalso. apply Hnotin. rewrite Heq. apply list_elem_of_In.
    apply List.in_map. exact Hy.
  - exfalso. apply Hnotin. rewrite <- Heq. apply list_elem_of_In.
    apply List.in_map. exact Hx.
  - exact (IH Hnd Hx Hy Heq).
Qed.

(** The effects a removal leaves, chassis to chassis. *)
Lemma removeFromChassis_effects_exact (modId : string) (c : Chassis) :
  NoDup (map ed_id (c_effects c)) ->
  c_effects (removeFromChassis modId c)
  = List.filter (fun e => negb (sourceModIs modId e)) (c_effects c).
Proof.
  intros Hnd. rewrite removeFromChassis_effects.
  cbn zeta.
  destruct (nonEmpty _) eqn:Hne.
  - apply List.filter_ext_in. intros e Hin. f_equal.
    destruct (sourceModIs modId e) eqn:Hsrc.
    + apply natIn_In. apply List.in_map. apply List.filter_In.
      split; assumption.
    + destruct (natIn _ _) eqn:Hmem; [| reflexivity].
      apply natIn_In in Hmem. apply List.in_map_iff in Hmem.
      destruct Hmem as (e' & Hid & Hin').
      apply List.filter_In in Hin' as [Hin' Hsrc'].
      assert (e' = e) by exact (NoDup_map_inj ed_id _ e' e Hnd Hin' Hin Hid).
      subst e'. congruence.
  - apply nonEmpty_false in Hne. symmetry.
    apply List.forallb_filter_id. apply List.forallb_forall.
    intros e Hin. destruct (sourceModIs modId e) eqn:Hsrc; [| reflexivity].
    exfalso.
    assert (Hmem : In e (List.filter (sourceModIs modId) (c_effects c)))
      by (apply List.filter_In; split; assumption).
    rewrite Hne in Hmem. destruct Hmem.
Qed.

(** X10. With distinct host ids a removal deletes from the chassis
    exactly the effects stamped with the id it removes: the effects
    left are the others, in their order. *)
Theorem removal_deletes_exactly_stamped (modId : string) (isSalvaged : bool)
    (w : World) :
  NoDup (map ed_id (c_effects (chassis w))) ->
  c_effects (chassis (snd (performRemove modId isSalvaged w)))
  = List.filter (fun e => negb (sourceModIs modId e)) (c_effects (chassis w)).
Proof.
  intros Hnd. rewrite performRemove_chassis.
  apply removeFromChassis_effects_exact. exact Hnd.
Qed.

Lemma removal_deletes_exactly_stamped_witness :
  c_effects (chassis (snd (performRemove "mod1" true installedWorld))) = [].
Proof.
  rewrite removal_deletes_exactly_stamped.
  - vm_compute. reflexivity.
  - vm_compute. repeat constructor. intros H. inversion H.
Defined.

Lemma noOrphans_install (modItem : Item) (w : World) :
  noOrphans (chassis w) -> noOrphans (chassis (snd (performInstall modItem w))).
Proof.
  intros Hno. rewrite performInstall_eq.
  destruct (getInjectedProperties modItem) as [props | e]; [| exact Hno].
  destruct (it_system (data modItem)) as [system |]; [| exact Hno].
  cbn [snd chassis]. intros e id Hin Hsrc.
  rewrite installOnChassis_effects in Hin. rewrite installOnChassis_mods.
  apply List.in_app_or in Hin. destruct Hin as [Hold | Hnew].
  - destruct (Hno e id Hold Hsrc) as (m & Hm & Hid).
    exists m. split; [apply List.in_or_app; left; exact Hm | exact Hid].
  - exists (installedEntry (chassis w) modItem props system).
    split; [apply List.in_or_app; right; left; reflexivity |].
    apply (List.in_map ed_data) in Hnew. rewrite withHostIds_data in Hnew.
    unfold projectedEffects in Hnew. apply List.in_map_iff in Hnew.
    destruct Hnew as (e0 & Heq & _). rewrite <- Heq in Hsrc. cbn in Hsrc.
    injection Hsrc as <-. reflexivity.
Qed.

Lemma noOrphans_remove (modId : string) (isSalvaged : bool) (w : World) :
  noOrphans (chassis w) ->
  noOrphans (chassis (snd (performRemove modId isSalvaged w))).
Proof.
  intros Hno. rewrite performRemove_chassis. intros e id Hin Hsrc.
  destruct (removed_effects_gone modId (chassis w) e Hin) as [Hnot Hold].
  destruct (Hno e id Hold Hsrc) as (m & Hm & Hid).
  exists m. split; [| exact Hid].
  rewrite removeFromChassis_mods. apply List.filter_In. split; [exact Hm |].
  unfold idIs. rewrite Hid. unfold sourceModIs in Hnot. rewrite Hsrc in Hnot.
  rewrite Hnot. reflexivity.
Qed.

(** X11. No orphaned effects: when every stamped effect on the chassis
    has an entry under the id of its stamp, this stays so through
    every session, with dialogs answered in any order. *)
Theorem no_orphaned_effects (settings : Settings) (w : World)
    (evs : list Event) :
  noOrphans (chassis w) ->
  Forall (fun w' => noOrphans (chassis w')) (trace settings w evs).
Proof.
  apply (session_invariant (fun w' => noOrphans (chassis w'))).
  - intros w1 w2 (Hc & _). rewrite Hc. tauto.
  - exact noOrphans_install.
  - exact noOrphans_remove.
Qed.

Lemma no_orphaned_effects_witness :
  Forall (fun w' => noOrphans (chassis w'))
    (trace defaultSettings (ownedWorld "rare")
       [ Drop "Item" keenEdge; Drop "Item" keenEdge;
         DialogDirect 0; DialogDirect 0;
         ClickDelete "mod1"; DialogDirect 0 ]).
Proof.
  apply no_orphaned_effects. intros e id Hin. destruct Hin.
Defined.

(** X12. No handler writes the world item directory, nor the uuid, the
    name, the type or the rarity of the chassis: all along every
    session they are what they were at its start. *)
Theorem session_keeps_directory_and_identity (settings : Settings)
    (w : World) (evs : list Event) :
  Forall (fun w' => worldItems w' = worldItems w
                    /\ sameChassisIdentity (chassis w) (chassis w'))
    (trace settings w evs).
Proof.
  apply (session_invariant
           (fun w' => worldItems w' = worldItems w
                      /\ sameChassisIdentity (chassis w) (chassis w'))).
  - intros w1 w2 (Hc & _ & Hw & _). rewrite Hc, Hw. tauto.
  - intros modItem w1 [Hitems Hid]. rewrite performInstall_eq.
    destruct (getInjectedProperties modItem) as [props | e];
      [| split; assumption].
    destruct (it_system (data modItem)) as [system |];
      [| split; assumption].
    cbn [snd chassis worldItems]. split; [exact Hitems |].
    pose proof (installOnChassis_identity (nextId w1) modItem props system
                  (chassis w1)) as Hstep.
    unfold sameChassisIdentity in *. intuition congruence.
  - intros modId isSalvaged w1 [Hitems Hid].
    destruct (performRemove_frame modId isSalvaged w1) as [Hw _].
    rewrite Hw, performRemove_chassis. split; [exact Hitems |].
    pose proof (removeFromChassis_identity modId (chassis w1)) as Hstep.
    unfold sameChassisIdentity in *. intuition congruence.
  - split; [reflexivity | repeat split].
Qed.

Lemma NoDup_uniqFrom (l seen : list string) : List.NoDup (uniqFrom seen l).
Proof.
  revert seen. induction l as [| x l IH]; intros seen; cbn;
    [constructor |].
  destruct (inList x seen); [apply IH |].
  constructor; [| apply IH].
  intros Hin. apply uniqFrom_In in Hin as [_ Hnot]. apply Hnot.
  left. reflexivity.
Qed.

(** X13. The tag list of the chassis never holds a tag twice once it
    holds none twice: an install merges through a set, a removal only
    filters. *)
Theorem tags_stay_duplicate_free (settings : Settings) (w : World)
    (evs : list Event) :
  List.NoDup (tags (chassis w)) ->
  Forall (fun w' => List.NoDup (tags (chassis w'))) (trace settings w evs).
Proof.
  apply (session_invariant (fun w' => List.NoDup (tags (chassis w')))).
  - intros w1 w2 (Hc & _). rewrite Hc. tauto.
  - intros modItem w1 Hnd. rewrite performInstall_eq.
    destruct (getInjectedProperties modItem) as [props | e]; [| exact Hnd].
    destruct (it_system (data modItem)) as [system |]; [| exact Hnd].
    cbn [snd chassis]. unfold installOnChassis.
    destruct (nonEmpty props); [| exact Hnd].
    unfold tags. cbn [c_properties setProperties default from_option id].
    apply NoDup_uniqFrom.
  - intros modId isSalvaged w1 Hnd. rewrite performRemove_chassis.
    unfold removeFromChassis.
    assert (Hsame : forall c effs, tags (setEffects effs c) = tags c)
      by reflexivity.
    assert (Hmods : forall c mods, tags (setInstalledMods mods c) = tags c)
      by reflexivity.
    destruct (List.find _ _) as [m |];
      [destruct (nonEmpty (im_properties m)) |];
      destruct (nonEmpty (List.filter _ _));
      unfold tags in *; cbn [c_properties setProperties setEffects
                               setInstalledMods default from_option id];
      try exact Hnd; apply List.NoDup_filter; exact Hnd.
Qed.

Lemma tags_stay_duplicate_free_witness :
  Forall (fun w' => List.NoDup (tags (chassis w')))
    (trace defaultSettings (looseWorld "rare")
       [ Drop "Item" keenEdge; DialogDirect 0;
         Drop "Item" keenArray; DialogDirect 0 ]).
Proof.
  apply tags_stay_duplicate_free. cbn. repeat constructor. intros [].
Defined.

(** ** Round trips and the wrap menu *)

Lemma find_snoc_none {A} (P : A -> bool) (l : list A) (x : A) :
  List.find P l = None ->
  List.find P (l ++ [x]) = if P x then Some x else None.
Proof.
  induction l as [| y l IH]; cbn; [reflexivity |].
  destruct (P y); [discriminate | exact IH].
Qed.

Lemma filter_none {A} (P : A -> bool) (l : list A) :
  (forall x, In x l -> P x = true) -> List.filter P l = l.
Proof.
  intros Hall. apply List.forallb_filter_id. apply List.forallb_forall.
  exact Hall.
Qed.

Lemma filter_all_out {A} (P : A -> bool) (l : list A) :
  (forall x, In x l -> P x = false) -> List.filter P l = [].
Proof.
  induction l as [| y l IH]; cbn; [reflexivity |].
  intros Hall. rewrite (Hall y (or_introl eq_refl)).
  apply IH. intros x Hx. apply Hall. right. exact Hx.
Qed.

(** X14. Install, then salvage.  A modification is installed on an
    owned chassis that has no entry and no effect under its id, and is
    then removed with salvage.  The list and the effects of the
    chassis are back to what they were, and the inventory of the actor
    has lost the source item and gained one loot wrapper whose payload
    is the payload the install stored. *)
Theorem install_then_salvage (w : World) (modItem : Item) (name : string)
    (system psys : SystemData) (items : list ItemData) (payload : ItemData) :
  it_name (data modItem) = Some name ->
  it_system (data modItem) = Some system ->
  modDataOf modItem = Some payload ->
  it_system payload = Some psys ->
  actorItems w = Some items ->
  hostIdsOk w ->
  List.find (idIs (it_id (data modItem))) (installedMods (chassis w)) = None ->
  (forall e, In e (c_effects (chassis w)) ->
             sourceModIs (it_id (data modItem)) e = false) ->
  let w1 := snd (performInstall modItem w) in
  let r := performRemove (it_id (data modItem)) true w1 in
  fst r = Ok tt
  /\ installedMods (chassis (snd r)) = installedMods (chassis w)
  /\ c_effects (chassis (snd r)) = c_effects (chassis w)
  /\ exists wrapper,
       actorItems (snd r)
       = Some (deleteById (it_id (data modItem)) items ++ [wrapper])%list
       /\ it_type wrapper = "loot"
       /\ forall u, modDataOf {| data := wrapper; uuid := u |} = Some payload.
Proof.
  intros Hname Hsys Hpayload Hpsys Hactor Hids Hfind Hclean w1 r.
  destruct (getInjectedProperties_ok modItem name Hname) as [props Hprops].
  set (id := it_id (data modItem)) in *.
  set (entry := installedEntry (chassis w) modItem props system).
  assert (Hw1 : w1 = snd (performInstall modItem w)) by reflexivity.
  rewrite performInstall_eq, Hprops, Hsys in Hw1. cbn [snd] in Hw1.
  assert (Hmods1 : installedMods (chassis w1)
                   = (installedMods (chassis w) ++ [entry])%list).
  { rewrite Hw1. cbn [chassis]. apply installOnChassis_mods. }
  assert (Heffs1 : c_effects (chassis w1)
                   = (c_effects (chassis w)
                      ++ withHostIds (nextId w)
                           (projectedEffects (chassis w) modItem))%list).
  { rewrite Hw1. cbn [chassis]. apply installOnChassis_effects. }
  assert (Hactor1 : actorItems w1 = Some (deleteById id items)).
  { rewrite Hw1. cbn [actorItems]. rewrite Hactor. reflexivity. }
  assert (Hfind1 : List.find (idIs id) (installedMods (chassis w1))
                   = Some entry).
  { rewrite Hmods1, (find_snoc_none _ _ _ Hfind).
    unfold idIs, entry. cbn [im_id installedEntry]. fold id.
    rewrite String.eqb_refl. reflexivity. }
  assert (Hids1 : hostIdsOk w1) by (apply hostIdsOk_install; exact Hids).
  assert (Hrun : r = performRemove id true w1) by reflexivity.
  rewrite performRemove_eq in Hrun. cbn zeta in Hrun.
  rewrite Hactor1, Hfind1 in Hrun. cbn [mbind option_bind] in Hrun.
  assert (Horig : im_originalData entry = Some payload) by exact Hpayload.
  rewrite Horig in Hrun. unfold lootWrapper in Hrun.
  rewrite Hpsys in Hrun. cbn [dot] in Hrun.
  split; [rewrite Hrun; reflexivity |].
  split.
  { unfold r. rewrite performRemove_chassis, removeFromChassis_mods, Hmods1.
    rewrite List.filter_app. cbn [List.filter].
    unfold idIs at 2, entry. cbn [im_id installedEntry]. fold id.
    rewrite String.eqb_refl. cbn [negb]. rewrite app_nil_r.
    apply filter_none. intros m Hm.
    destruct (idIs id m) eqn:Hid; [| reflexivity].
    exfalso. eapply List.find_none in Hfind; [| exact Hm]. congruence. }
  split.
  { unfold r. rewrite performRemove_chassis.
    rewrite removeFromChassis_effects_exact by apply Hids1.
    rewrite Heffs1, List.filter_app.
    rewrite (filter_none _ (c_effects (chassis w))).
    - rewrite (filter_all_out _ (withHostIds _ _)); [apply app_nil_r |].
      intros e He. apply (List.in_map ed_data) in He.
      rewrite withHostIds_data in He. unfold projectedEffects in He.
      apply List.in_map_iff in He. destruct He as (e0 & Heq & _).
      unfold sourceModIs. rewrite <- Heq. cbn. fold id.
      rewrite String.eqb_refl. reflexivity.
    - intros e He. rewrite (Hclean e He). reflexivity. }
  rewrite Hrun. cbn [snd]. eexists. split; [reflexivity |].
  split; reflexivity.
Qed.

Lemma install_then_salvage_witness :
  let w1 := snd (performInstall keenEdge (ownedWorld "rare")) in
  let r := performRemove "mod1" true w1 in
  installedMods (chassis (snd r)) = []
  /\ c_effects (chassis (snd r)) = [].
Proof.
  destruct (install_then_salvage (ownedWorld "rare") keenEdge "Keen Edge"
              (default {| sys_description := None; sys_rarity := None;
                          sys_weight := None; sys_price := None;
                          sys_properties := None; sys_type := None |}
                 (it_system sampleMod))
              (default {| sys_description := None; sys_rarity := None;
                          sys_weight := None; sys_price := None;
                          sys_properties := None; sys_type := None |}
                 (it_system sampleMod))
              [data keenEdge] sampleMod
              eq_refl eq_refl eq_refl eq_refl eq_refl
              ltac:(split; cbn; constructor)
              eq_refl
              ltac:(intros e [])) as (_ & Hmods & Heffs & _).
  split; assumption.
Defined.

(** X15. What is masked is recognised.  An item of type
    "modification", the item the creation interceptor makes of it, and
    every loot wrapper built on salvage are classified as
    modifications; the two wrapped forms are not offered the "Wrap"
    menu entry again, the raw one is. *)
Theorem masked_items_are_recognised (item : ItemData) (u : option string) :
  (it_type item = "modification" ->
     isModification (Some {| data := item; uuid := u |}) = Ok (Some true)
     /\ wrapCondition (Some {| data := item; uuid := u |})
        = Ok (negb (truthy (flag_isWrappedMod item)))
     /\ let masked := {| data := preCreateItem item (it_type item);
                         uuid := u |} in
        isModification (Some masked) = Ok (Some true)
        /\ wrapCondition (Some masked) = Ok false)
  /\ (forall id wrapper,
        lootWrapper id item = Ok wrapper ->
        let salvaged := {| data := wrapper; uuid := u |} in
        isModification (Some salvaged) = Ok (Some true)
        /\ wrapCondition (Some salvaged) = Ok false).
Proof.
  split.
  - intros Htype.
    assert (Hraw : isModification (Some {| data := item; uuid := u |})
                   = Ok (Some true)).
    { unfold isModification. cbn [data].
      destruct (truthy (flag_isWrappedMod item)); [reflexivity |].
      destruct (Js.includes "modifications" _); [reflexivity |].
      rewrite Htype. cbn [String.eqb Ascii.eqb Bool.eqb].
      rewrite !orb_true_r.
      destruct (_ <$> it_name item) as [[] |]; reflexivity. }
    split; [exact Hraw |].
    split; [unfold wrapCondition; rewrite Hraw; reflexivity |].
    unfold preCreateItem. rewrite Htype. cbn. split; reflexivity.
  - intros id wrapper Hwrap. unfold lootWrapper in Hwrap.
    destruct (it_system item); cbn in Hwrap; [| discriminate].
    injection Hwrap as <-. cbn. split; reflexivity.
Qed.

Lemma masked_items_are_recognised_witness :
  isModification (Some keenEdge) = Ok (Some true)
  /\ wrapCondition (Some keenEdge) = Ok false.
Proof.
  destruct (masked_items_are_recognised sampleMod (Some "Item.mod1"))
    as [Hmask _].
  destruct (Hmask eq_refl) as (_ & _ & Hmasked). exact Hmasked.
Defined.

Lemma deleteById_snoc (id : string) (items : list ItemData) (x i : ItemData) :
  getById id items = Some i ->
  deleteById id (items ++ [x]) = (deleteById id items ++ [x])%list.
Proof.
  unfold getById. induction items as [| j items IH]; cbn; [discriminate |].
  destruct (String.eqb (it_id j) id); [reflexivity |].
  intros Hget. rewrite IH by exact Hget. reflexivity.
Qed.

Lemma getById_In (items : list ItemData) (item : ItemData) :
  In item items -> exists i, getById (it_id item) items = Some i.
Proof.
  unfold getById. induction items as [| j items IH]; cbn; [intros [] |].
  intros [-> | Hin].
  - rewrite String.eqb_refl. eexists. reflexivity.
  - destruct (String.eqb (it_id j) (it_id item)); [eexists; reflexivity |].
    exact (IH Hin).
Qed.

(** X16. The manual wrap.  For an item that lies in the collection and
    has its [system], [wrapModification] puts one loot wrapper at the
    end of the collection, takes one document with the id of the item
    out of it, and names the item in its notice; the wrapper carries
    the whole source of the item as its payload and is not offered the
    menu entry again.  For an item without [system] it raises and
    creates nothing. *)
Theorem wrapModification_wraps (n : nat) (items : list ItemData) (item : Item) :
  (forall system,
      it_system (data item) = Some system ->
      In (data item) items ->
      exists wrapper,
        wrapModification n items item
        = Ok ((deleteById (it_id (data item)) items ++ [wrapper])%list,
              it_name (data item))
        /\ S (length (deleteById (it_id (data item)) items)) = length items
        /\ it_type wrapper = "loot"
        /\ it_id wrapper = hostId n
        /\ (forall u, modDataOf {| data := wrapper; uuid := u |}
                      = Some (data item))
        /\ forall u, wrapCondition (Some {| data := wrapper; uuid := u |})
                     = Ok false)
  /\ (it_system (data item) = None ->
      exists e, wrapModification n items item = Throw e).
Proof.
  split.
  - intros system Hsys Hin.
    destruct (getById_In items (data item) Hin) as [i Hget].
    unfold wrapModification, toObject, lootWrapper. rewrite Hsys.
    cbn [dot it_type]. unfold preCreateItem.
    cbn [String.eqb Ascii.eqb Bool.eqb negb].
    rewrite (deleteById_snoc _ _ _ i Hget).
    eexists. split; [reflexivity |].
    split; [exact (deleteById_length _ _ i Hget) |].
    repeat split.
  - intros Hnone. unfold wrapModification, toObject, lootWrapper.
    rewrite Hnone. eexists. reflexivity.
Qed.

Lemma wrapModification_wraps_witness :
  exists wrapper,
    wrapModification 7 [sampleMod2; sampleMod] {| data := sampleMod;
                                                  uuid := None |}
    = Ok ([sampleMod2; wrapper], Some "Keen Edge")
    /\ it_type wrapper = "loot".
Proof.
  destruct (wrapModification_wraps 7 [sampleMod2; sampleMod]
              {| data := sampleMod; uuid := None |}) as [Hwrap _].
  destruct (Hwrap
              (default {| sys_description := None; sys_rarity := None;
                          sys_weight := None; sys_price := None;
                          sys_properties := None; sys_type := None |}
                 (it_system sampleMod))
              eq_refl (or_intror (or_introl eq_refl)))
    as (wrapper & Hrun & _ & Htype & _).
  exists wrapper. split; [exact Hrun | exact Htype].
Defined.

(** ** EffectProjector and the tag header *)

(** X17. The tags a modification projects are exactly: the words of
    the fixed vocabulary that occur in its lower-cased name, and the
    keys of its property object whose value is [true]; nothing else.
    Without a name the projection raises. *)
Theorem projected_tags_exactly (modItem : Item) :
  (forall name,
      it_name (data modItem) = Some name ->
      exists props,
        getInjectedProperties modItem = Ok props
        /\ forall p,
             In p props <->
             (In p knownProperties
              /\ Js.includes p (Js.toLowerCase name) = true)
             \/ (exists obj,
                   it_system (data modItem) ≫= sys_properties = Some obj
                   /\ In (p, true) obj))
  /\ (it_name (data modItem) = None ->
      exists e, getInjectedProperties modItem = Throw e).
Proof.
  split.
  - intros name Hname. unfold getInjectedProperties. rewrite Hname.
    cbn [dot].
    destruct (it_system (data modItem) ≫= sys_properties) as [obj |].
    + eexists. split; [reflexivity |]. intros p.
      rewrite in_app_iff, List.filter_In, List.in_map_iff. split.
      * intros [Hknown | ((q, b) & Hq & Hin)]; [left; exact Hknown |].
        right. exists obj. split; [reflexivity |].
        apply List.filter_In in Hin as [Hin Hb]. cbn in Hq, Hb. subst.
        exact Hin.
      * intros [Hknown | (obj' & [= <-] & Hin)]; [left; exact Hknown |].
        right. exists (p, true). split; [reflexivity |].
        apply List.filter_In. split; [exact Hin | reflexivity].
    + eexists. split; [reflexivity |]. intros p.
      rewrite List.filter_In. split.
      * intros Hknown. left. exact Hknown.
      * intros [Hknown | (obj & Hobj & _)]; [exact Hknown | discriminate].
  - intros Hnone. unfold getInjectedProperties. rewrite Hnone.
    eexists. reflexivity.
Qed.

Lemma projected_tags_exactly_witness :
  exists props,
    getInjectedProperties keenEdge = Ok props
    /\ In "keen" props /\ ~ In "reach" props.
Proof.
  destruct (projected_tags_exactly keenEdge) as [Hnamed _].
  destruct (Hnamed "Keen Edge" eq_refl) as (props & Hrun & Hiff).
  exists props. split; [exact Hrun |]. split.
  - apply Hiff. left. split; [| reflexivity].
    vm_compute. tauto.
  - intros Hin. apply Hiff in Hin.
    destruct Hin as [[_ Hinc] | (obj & [= <-] & Hobj)].
    + vm_compute in Hinc. discriminate.
    + cbn in Hobj. destruct Hobj as [[=] | [[=] | []]].
Defined.

Lemma in_flat_map_props (p : string) (mods : list InstalledMod) :
  In p (flat_map im_properties mods)
  <-> exists m, In m mods /\ In p (im_properties m).
Proof. apply List.in_flat_map. Qed.

(** X18. The "Active Tags" header.  It is empty exactly when no
    installed entry has a property; otherwise it lists each tag once,
    and a tag is listed exactly when some installed entry has it.  So
    after a removal a tag that a remaining entry has is still listed. *)
Theorem header_lists_tags_of_entries (c : Chassis) :
  (renderInjectedPropertiesHeader c = None <->
     forall m, In m (installedMods c) -> im_properties m = [])
  /\ (forall shown,
        renderInjectedPropertiesHeader c = Some shown ->
        List.NoDup shown
        /\ forall p, In p shown <->
                     exists m, In m (installedMods c)
                               /\ In p (im_properties m))
  /\ (forall modId m p,
        In m (installedMods c) ->
        im_id m <> modId ->
        In p (im_properties m) ->
        exists shown,
          renderInjectedPropertiesHeader (removeFromChassis modId c)
          = Some shown
          /\ In p shown).
Proof.
  assert (Hsome : forall c' p,
             (exists m, In m (installedMods c') /\ In p (im_properties m)) ->
             exists shown,
               renderInjectedPropertiesHeader c' = Some shown
               /\ In p shown).
  { intros c' p Hex. apply in_flat_map_props in Hex.
    unfold renderInjectedPropertiesHeader.
    destruct (flat_map im_properties (installedMods c')) as [| q qs] eqn:Hall;
      [destruct Hex |].
    eexists. split; [reflexivity |]. apply uniq_In. exact Hex. }
  split; [| split].
  - unfold renderInjectedPropertiesHeader.
    destruct (flat_map im_properties (installedMods c)) as [| q qs] eqn:Hall.
    + split; [| reflexivity]. intros _ m Hm.
      destruct (im_properties m) as [| p ps] eqn:Hp; [reflexivity |].
      exfalso.
      assert (Hin : In p (flat_map im_properties (installedMods c))).
      { apply in_flat_map_props. exists m. split; [exact Hm |].
        rewrite Hp. left. reflexivity. }
      rewrite Hall in Hin. destruct Hin.
    + split; [discriminate |]. intros Hnone. exfalso.
      assert (Hin : In q (flat_map im_properties (installedMods c)))
        by (rewrite Hall; left; reflexivity).
      apply in_flat_map_props in Hin. destruct Hin as (m & Hm & Hq).
      rewrite (Hnone m Hm) in Hq. destruct Hq.
  - intros shown Hshown. unfold renderInjectedPropertiesHeader in Hshown.
    destruct (flat_map im_properties (installedMods c)) as [| q qs] eqn:Hall;
      [discriminate |].
    injection Hshown as <-. split; [apply NoDup_uniqFrom |].
    intros p. rewrite uniq_In, <- Hall. apply in_flat_map_props.
  - intros modId m p Hm Hid Hp. apply Hsome. exists m.
    split; [| exact Hp].
    rewrite removeFromChassis_mods. apply List.filter_In.
    split; [exact Hm |]. unfold idIs.
    destruct (String.eqb_spec (im_id m) modId); [contradiction | reflexivity].
Qed.

Lemma header_lists_tags_of_entries_witness :
  exists shown,
    renderInjectedPropertiesHeader
      (removeFromChassis "mod1" (chassis twoKeenWorld)) = Some shown
    /\ In "keen" shown.
Proof.
  destruct (header_lists_tags_of_entries (chassis twoKeenWorld))
    as (_ & _ & Hkept).
  apply (Hkept "mod1"
           (installedEntry (sampleChassis "rare") keenArray ["keen"]
              (default {| sys_description := None; sys_rarity := None;
                          sys_weight := None; sys_price := None;
                          sys_properties := None; sys_type := None |}
                 (it_system sampleMod2)))
           "keen").
  - vm_compute. right. left. reflexivity.
  - discriminate.
  - left. reflexivity.
Defined.

(** ** Salvage, again *)

(** X19. A salvaged wrapper that is installed again stores the
    original payload again, but projects no effect, whatever effects
    the original had, and its only tags are the vocabulary words in
    its name: the wrapper has no effects and no property object of its
    own. *)
Theorem reinstalled_wrapper (w : World) (id name : string)
    (orig wrapper : ItemData) (u : option string) :
  lootWrapper id orig = Ok wrapper ->
  it_name orig = Some name ->
  let modItem := {| data := wrapper; uuid := u |} in
  let w' := snd (performInstall modItem w) in
  exists entry,
    fst (performInstall modItem w) = Ok tt
    /\ last (installedMods (chassis w')) = Some entry
    /\ im_originalData entry = Some orig
    /\ im_effects entry = []
    /\ im_properties entry
       = List.filter (fun p => Js.includes p (Js.toLowerCase name))
           knownProperties
    /\ c_effects (chassis w') = c_effects (chassis w).
Proof.
  intros Hwrap Hname modItem w'.
  unfold lootWrapper in Hwrap.
  destruct (it_system orig) as [system |] eqn:Hsys; cbn in Hwrap;
    [| discriminate].
  injection Hwrap as <-.
  subst w'. rewrite performInstall_eq.
  unfold getInjectedProperties. subst modItem. cbn [data it_name it_system].
  rewrite Hname. cbn [dot mbind option_bind sys_properties snd fst chassis].
  rewrite installOnChassis_mods, installOnChassis_effects.
  eexists. split; [reflexivity |].
  split; [apply last_snoc |].
  repeat split. apply app_nil_r.
Qed.

Lemma reinstalled_wrapper_witness :
  exists wrapper entry,
    lootWrapper "doc0" sampleMod = Ok wrapper
    /\ it_effects sampleMod <> []
    /\ last (installedMods
               (chassis (snd (performInstall {| data := wrapper; uuid := None |}
                                (looseWorld "rare"))))) = Some entry
    /\ im_effects entry = []
    /\ im_properties entry = ["keen"].
Proof.
  eexists.
  destruct (reinstalled_wrapper (looseWorld "rare") "doc0" "Keen Edge"
              sampleMod _ None eq_refl eq_refl)
    as (entry & _ & Hlast & _ & Heffs & Hprops & _).
  exists entry. split; [reflexivity |]. split; [discriminate |].
  split; [exact Hlast |]. split; [exact Heffs |].
  rewrite Hprops. vm_compute. reflexivity.
Defined.

(** X20. Where the DC of a modification comes from.  The dialog that
    installs an item and the dialog that removes the entry the install
    left both open with the DC of the item's own label, and the entry
    stores the payload of the item.  The dialog that installs the
    wrapper a salvage makes of that payload opens with the DC of the
    payload's label.  The two labels are the same for an item that is
    not wrapped and for an item as the interceptor wrapped it, so
    there the three DCs agree. *)
Theorem dc_follows_the_modification (w : World) (modItem : Item)
    (props : list string) (system psys : SystemData) (payload : ItemData)
    (id : string) (wrapper : ItemData) (u : option string) :
  it_system (data modItem) = Some system ->
  modDataOf modItem = Some payload ->
  it_system payload = Some psys ->
  lootWrapper id payload = Ok wrapper ->
  let entry := installedEntry (chassis w) modItem props system in
  let dcOf (a : ModArg) :=
    dlg_dc <$> last (dialogs (snd (showModActionDialog a w))) in
  dcOf (ModItem modItem) = Some (dcOfLabel (sys_rarity system))
  /\ dcOf (ModEntry entry) = Some (dcOfLabel (sys_rarity system))
  /\ im_originalData entry = Some payload
  /\ dcOf (ModItem {| data := wrapper; uuid := u |})
     = Some (dcOfLabel (sys_rarity psys))
  /\ (truthy (flag_isWrappedMod (data modItem)) = false -> psys = system)
  /\ (forall d, data modItem = preCreateItem d "modification" ->
                psys = system).
Proof.
  intros Hsys Hpay Hpsys Hwrap entry dcOf. subst dcOf. cbn beta.
  unfold lootWrapper in Hwrap. rewrite Hpsys in Hwrap. cbn in Hwrap.
  injection Hwrap as <-.
  rewrite !showModActionDialog_dc. cbn [snd setDialogs dialogs].
  rewrite !last_snoc. cbn [fmap option_fmap option_map dlg_dc data it_system
                              mbind option_bind sys_rarity].
  rewrite Hsys. cbn [mbind option_bind].
  split; [reflexivity |]. split; [reflexivity |].
  split; [exact Hpay |]. split; [reflexivity |].
  split.
  - intros Hplain. unfold modDataOf in Hpay. rewrite Hplain in Hpay.
    injection Hpay as <-. unfold toObject in Hpsys. congruence.
  - intros d Hd. unfold modDataOf in Hpay. rewrite Hd in Hpay, Hsys.
    cbn in Hpay, Hsys. injection Hpay as <-. congruence.
Qed.

Lemma dc_follows_the_modification_witness :
  let dcOf (a : ModArg) :=
    dlg_dc <$> last (dialogs (snd (showModActionDialog a
                                     (looseWorld "rare")))) in
  exists entry wrapper,
    lootWrapper "doc0" sampleMod2 = Ok wrapper
    /\ dcOf (ModItem relabelled) = Some (Num 26)
    /\ dcOf (ModEntry entry) = Some (Num 26)
    /\ im_originalData entry = Some sampleMod2
    /\ dcOf (ModItem {| data := wrapper; uuid := None |}) = Some (Num 10).
Proof.
  intros dcOf.
  exists (installedEntry (chassis (looseWorld "rare")) relabelled []
            (default {| sys_description := None; sys_rarity := None;
                        sys_weight := None; sys_price := None;
                        sys_properties := None; sys_type := None |}
               (it_system (data relabelled)))).
  eexists.
  destruct (dc_follows_the_modification (looseWorld "rare") relabelled []
              (default {| sys_description := None; sys_rarity := None;
                          sys_weight := None; sys_price := None;
                          sys_properties := None; sys_type := None |}
                 (it_system (data relabelled)))
              (default {| sys_description := None; sys_rarity := None;
                          sys_weight := None; sys_price := None;
                          sys_properties := None; sys_type := None |}
                 (it_system sampleMod2))
              sampleMod2 "doc0" _ None eq_refl eq_refl eq_refl eq_refl)
    as (Hitem & Hentry & Hstored & Hagain & _).
  split; [reflexivity |].
  split; [exact Hitem |]. split; [exact Hentry |].
  split; [exact Hstored |]. exact Hagain.
Defined.

(** X21. A removal leaves no entry under the id it removed, so asking
    again with salvage is a no-op: it succeeds and the list, the
    effects, the tags, the inventory and the notices stay as the first
    removal left them. *)
Theorem second_removal_is_a_noop (modId : string) (isSalvaged : bool)
    (w : World) :
  let w1 := snd (performRemove modId isSalvaged w) in
  let r := performRemove modId true w1 in
  List.find (idIs modId) (installedMods (chassis w1)) = None
  /\ fst r = Ok tt
  /\ installedMods (chassis (snd r)) = installedMods (chassis w1)
  /\ c_effects (chassis (snd r)) = c_effects (chassis w1)
  /\ tags (chassis (snd r)) = tags (chassis w1)
  /\ actorItems (snd r) = actorItems w1
  /\ notices (snd r) = notices w1.
Proof.
  intros w1 r.
  assert (Hnone : List.find (idIs modId) (installedMods (chassis w1)) = None).
  { destruct (List.find _ _) as [m |] eqn:Hfind; [| reflexivity].
    exfalso. apply List.find_some in Hfind as [Hin Hid].
    unfold w1 in Hin. rewrite performRemove_chassis in Hin.
    apply removed_entry_gone in Hin. unfold idIs in Hid.
    apply String.eqb_eq in Hid. contradiction. }
  split; [exact Hnone |].
  destruct (performRemove_missing_salvage w1 modId Hnone)
    as (Hok & Hmods & Htags & Hactor & Hnotes).
  repeat split; try assumption.
  unfold r. rewrite performRemove_chassis, removeFromChassis_effects.
  cbn zeta.
  assert (Hclean : List.filter (sourceModIs modId) (c_effects (chassis w1))
                   = []).
  { apply filter_all_out. intros e He. unfold w1 in He.
    rewrite performRemove_chassis in He.
    exact (proj1 (removed_effects_gone modId (chassis w) e He)). }
  rewrite Hclean. reflexivity.
Qed.

(** ** The uninstall control and the classifier *)

(** X22. A click on an uninstall control opens a dialog exactly when
    the value read from the control is a string and the list has an
    entry under it; the dialog is a removal dialog, it holds the first
    such entry as the list has it at the click, and its DC is the DC
    of that entry's label.  A click whose value is a string no entry
    has, or is no string at all (the case of an id that looks like a
    number), changes nothing. *)
Theorem click_opens_removal_dialog (settings : Settings) (w : World)
    (modId : DataValue) :
  isChassisType (chassis w) = true ->
  (forall s modData,
      modId = DataString s ->
      List.find (idIs s) (installedMods (chassis w)) = Some modData ->
      handle settings (ClickDelete modId) w
      = (Ok tt,
         setDialogs
           (dialogs w ++
            [ {| dlg_mod := ModEntry modData;
                 dlg_dc := dcOfLabel (im_rarity modData) |} ]) w))
  /\ (forall s,
        modId = DataString s ->
        List.find (idIs s) (installedMods (chassis w)) = None ->
        handle settings (ClickDelete modId) w = (Ok tt, w))
  /\ (modId = DataOther ->
      handle settings (ClickDelete modId) w = (Ok tt, w)).
Proof.
  intros Htype. repeat split.
  - intros s modData -> Hfind.
    unfold handle, bind at 1, getWorld at 1. rewrite Htype.
    unfold onModDelete, bind at 1, getWorld at 1.
    change (idIsData (DataString s)) with (idIs s).
    rewrite Hfind. apply showModActionDialog_dc.
  - intros s -> Hfind.
    unfold handle, bind at 1, getWorld at 1. rewrite Htype.
    unfold onModDelete, bind at 1, getWorld at 1.
    change (idIsData (DataString s)) with (idIs s).
    rewrite Hfind. reflexivity.
  - intros ->.
    unfold handle, bind at 1, getWorld at 1. rewrite Htype.
    unfold onModDelete, bind at 1, getWorld at 1.
    assert (Hnone : List.find (idIsData DataOther)
                      (installedMods (chassis w)) = None).
    { induction (installedMods (chassis w)) as [| m ms IH];
        [reflexivity | exact IH]. }
    rewrite Hnone. reflexivity.
Qed.

Lemma click_opens_removal_dialog_witness :
  handle defaultSettings (ClickDelete "ghost") installedWorld
  = (Ok tt, installedWorld)
  /\ handle defaultSettings (ClickDelete DataOther) installedWorld
     = (Ok tt, installedWorld).
Proof.
  destruct (click_opens_removal_dialog defaultSettings installedWorld "ghost")
    as (_ & Hmissing & _); [vm_compute; reflexivity |].
  destruct (click_opens_removal_dialog defaultSettings installedWorld
              DataOther) as (_ & _ & Hother); [vm_compute; reflexivity |].
  split.
  - apply (Hmissing "ghost"); [reflexivity | vm_compute; reflexivity].
  - apply Hother. reflexivity.
Defined.

Lemma orB_true_iff (a : option bool) (x y : bool) :
  orB (orB a (Some x)) (Some y) = Some true
  <-> a = Some true \/ x = true \/ y = true.
Proof.
  destruct a as [[] |], x, y; cbn; split; intros H;
    try reflexivity; try discriminate; try tauto;
    destruct H as [H | [H | H]]; discriminate.
Qed.

(** X23. The classifier accepts an item exactly when one of these
    holds: it is flagged as wrapped; its uuid, lower-cased, contains
    "modifications"; its name, its [system.type.value] or its
    [system.type.label], lower-cased, contains "modification"; its
    type is "modification"; or its [sw5e] type flag is
    "modification". *)
Theorem isModification_iff (item : Item) :
  isModification (Some item) = Ok (Some true) <->
  truthy (flag_isWrappedMod (data item)) = true
  \/ (exists u, uuid item = Some u
                /\ Js.includes "modifications" (Js.toLowerCase u) = true)
  \/ (exists n, it_name (data item) = Some n
                /\ Js.includes "modification" (Js.toLowerCase n) = true)
  \/ (exists t v, it_system (data item) ≫= sys_type = Some t
                  /\ (ty_value t = Some v \/ ty_label t = Some v)
                  /\ Js.includes "modification" (Js.toLowerCase v) = true)
  \/ it_type (data item) = "modification"
  \/ flag_sw5e_type (data item) = Some "modification".
Proof.
  assert (Hopt : forall (o : option string) (needle : string),
             Js.includes needle "" = false ->
             Js.includes needle (Js.orStr (Js.toLowerCase <$> o) "") = true
             <-> exists v, o = Some v
                           /\ Js.includes needle (Js.toLowerCase v) = true).
  { intros o needle Hempty. unfold Js.orStr.
    destruct o as [v |]; cbn [fmap option_fmap option_map].
    - destruct (String.eqb_spec (Js.toLowerCase v) "") as [Hv | Hv].
      + rewrite Hempty. split; [discriminate |].
        intros (v' & [= <-] & Hin). rewrite Hv in Hin. congruence.
      + split; [intros Hin; exists v; split; [reflexivity | exact Hin] |].
        intros (v' & [= <-] & Hin). exact Hin.
    - rewrite Hempty. split; [discriminate | intros (v & Hv & _)].
      discriminate. }
  unfold isModification.
  destruct (truthy (flag_isWrappedMod (data item))) eqn:Hwrapped;
    [split; [intros _; left; reflexivity | reflexivity] |].
  pose proof (Hopt (uuid item) "modifications" eq_refl) as Huuid.
  destruct (Js.includes "modifications" _) eqn:Hu.
  - split; [intros _; right; left; apply Huuid; reflexivity | reflexivity].
  - assert (Hok : forall x : option bool,
               @Ok (option bool) x = Ok (Some true) <-> x = Some true)
      by (intros x; split; [intros [= ->] | intros ->]; reflexivity).
    rewrite Hok, orB_true_iff, !orb_true_iff.
    pose proof (Hopt ((it_system (data item) ≫= sys_type) ≫= ty_value)
                  "modification" eq_refl) as Hvalue.
    pose proof (Hopt ((it_system (data item) ≫= sys_type) ≫= ty_label)
                  "modification" eq_refl) as Hlabel.
    rewrite Hvalue, Hlabel, String.eqb_eq.
    split.
    + intros [Hname | [[[Hv | Hl] | Htype] | Hflag]].
      * right. right. left.
        destruct (it_name (data item)) as [n |]; [| discriminate].
        exists n. split; [reflexivity |]. cbn in Hname. congruence.
      * right. right. right. left. destruct Hv as (v & Hv & Hin).
        destruct (it_system (data item) ≫= sys_type) as [t |];
          [| discriminate].
        exists t, v. cbn in Hv. tauto.
      * right. right. right. left. destruct Hl as (v & Hv & Hin).
        destruct (it_system (data item) ≫= sys_type) as [t |];
          [| discriminate].
        exists t, v. cbn in Hv. tauto.
      * tauto.
      * right. right. right. right. right.
        destruct (flag_sw5e_type (data item)) as [t |]; [| discriminate].
        apply String.eqb_eq in Hflag. congruence.
    + intros [Hw | [Hu' | [(n & Hn & Hin) | [(t & v & Ht & Hv & Hin)
                                            | [Htype | Hflag]]]]].
      * discriminate.
      * apply Huuid in Hu'. congruence.
      * left. rewrite Hn. cbn. congruence.
      * right. left. left. rewrite Ht. cbn.
        destruct Hv as [Hv | Hv]; [left | right]; exists v; tauto.
      * tauto.
      * right. right. rewrite Hflag. apply String.eqb_refl.
Qed.

Lemma isModification_iff_witness :
  isModification
    (Some {| data := commonMod "x" "Arm Modification Kit"; uuid := None |})
  = Ok (Some true).
Proof.
  apply isModification_iff. right. right. left.
  exists "Arm Modification Kit". split; reflexivity.
Defined.
